(** * A shallow embedding of pyservice's service controllers

    [Linux] embeds the class [LinuxService] built by the decorator
    [service] of src/pyservice/linux.py; [Windows] embeds the class
    [WindowsService] of src/pyservice/windows.py.

    The Linux code runs against the operating system.  The model makes the
    environment explicit: a world holds the file system (a gmap from paths to
    files), the process identity, and two oracles that stand for the kernel
    answers the code cannot predict (the outcome of each [os.kill] and of
    each [os.fork]).  Every operating-system call appends an event to a log,
    so the order in which the code touches the system can be read off. *)

From Stdlib Require Import ZArith Ascii String List Lia.
From stdpp Require Import base gmap strings pretty.
Import ListNotations.
Open Scope Z_scope.

(** ** Python string helpers used by the code *)
Module PyStr.

(** [str.find]: index of the first occurrence, [-1] when absent. *)
Definition find (hay needle : string) : Z :=
  match String.index 0 needle hay with
  | Some k => Z.of_nat k
  | None => -1
  end.

(** The characters [str.strip()] removes and [int()] skips around its
    digits ([Py_UNICODE_ISSPACE]); a character is read as the code point
    0..255 of the same number: [\t \n \v \f \r], the separators
    0x1c..0x1f, the space, NEXT LINE (0x85) and NO-BREAK SPACE (0xa0). *)
Definition is_space (c : ascii) : bool :=
  let n := nat_of_ascii c in
  (Nat.eqb n 32 || (Nat.leb 9 n && Nat.leb n 13) || (Nat.leb 28 n && Nat.leb n 31)
   || Nat.eqb n 133 || Nat.eqb n 160)%bool.

Fixpoint lstrip_l (l : list ascii) : list ascii :=
  match l with
  | c :: r => if is_space c then lstrip_l r else l
  | [] => []
  end.

(** [str.strip()] *)
Definition strip (s : string) : string :=
  string_of_list_ascii
    (rev (lstrip_l (rev (lstrip_l (list_ascii_of_string s))))).

Definition digit_val (c : ascii) : option Z :=
  let n := nat_of_ascii c in
  if (Nat.leb 48 n && Nat.leb n 57)%bool then Some (Z.of_nat n - 48) else None.

(** Digits of a Python integer literal in base 10: at least one digit,
    single underscores allowed between digits.  [acc] is the value so far,
    [prev_digit] says whether the last character read was a digit. *)
Fixpoint digits_aux (l : list ascii) (acc : Z) (prev_digit : bool) : option Z :=
  match l with
  | [] => if prev_digit then Some acc else None
  | c :: r =>
      match digit_val c with
      | Some d => digits_aux r (10 * acc + d) true
      | None =>
          if (Nat.eqb (nat_of_ascii c) 95 && prev_digit)%bool
          then match r with
               | [] => None
               | _ => digits_aux r acc false
               end
          else None
      end
  end.

(** The whitespace [int()] skips around the digits: [\t \n \v \f \r]
    and the space ([Py_ISSPACE]), and NEXT LINE and NO-BREAK SPACE, which
    [_PyUnicode_TransformDecimalAndSpaceToASCII] turns into spaces first;
    it leaves the characters below 127 as they are, so 0x1c..0x1f, which
    [str.strip()] removes, are not skipped by [int()]. *)
Definition int_space (c : ascii) : bool :=
  let n := nat_of_ascii c in
  (Nat.eqb n 32 || (Nat.leb 9 n && Nat.leb n 13) || Nat.eqb n 133 || Nat.eqb n 160)%bool.

Fixpoint int_lstrip (l : list ascii) : list ascii :=
  match l with
  | c :: r => if int_space c then int_lstrip r else l
  | [] => []
  end.

Definition int_strip (s : string) : string :=
  string_of_list_ascii
    (rev (int_lstrip (rev (int_lstrip (list_ascii_of_string s))))).

(** [int(s)] on a string, base 10: optional surrounding whitespace,
    optional sign, decimal digits.  [None] stands for the [ValueError] it
    raises.  (The model has no limit on the number of digits: it follows
    the Python 3 releases before the limit of 4300 digits that came with
    3.11 and the security releases of September 2022.) *)
Definition py_int (s : string) : option Z :=
  match list_ascii_of_string (int_strip s) with
  | c :: r =>
      if Nat.eqb (nat_of_ascii c) 45 then option_map Z.opp (digits_aux r 0 false)
      else if Nat.eqb (nat_of_ascii c) 43 then digits_aux r 0 false
      else digits_aux (c :: r) 0 false
  | [] => None
  end.

(** [str.replace(old, new)] (all non-overlapping occurrences, left to
    right); [fuel] bounds the recursion by the length of the subject. *)
Fixpoint replace_aux (fuel : nat) (old new s : string) : string :=
  match fuel with
  | O => s
  | S f =>
      match s with
      | EmptyString => EmptyString
      | String c r =>
          if String.prefix old s then
            new +:+ replace_aux f old new
                      (String.substring (String.length old)
                         (String.length s - String.length old) s)
          else String c (replace_aux f old new r)
      end
  end.

Definition replace (s old new : string) : string :=
  replace_aux (S (String.length s)) old new s.

Definition chr (n : nat) : string := String (ascii_of_nat n) EmptyString.
Definition nl : string := chr 10.

(** [text.split('\n')] *)
Fixpoint split_nl (s : string) : list string :=
  match s with
  | EmptyString => [EmptyString]
  | String c r =>
      let ls := split_nl r in
      if Nat.eqb (nat_of_ascii c) 10 then EmptyString :: ls
      else match ls with
           | l :: t => String c l :: t
           | [] => [String c EmptyString]
           end
  end.

(** ['\n'.join(lines)] *)
Fixpoint join_nl (ls : list string) : string :=
  match ls with
  | [] => EmptyString
  | [l] => l
  | l :: t => l +:+ nl +:+ join_nl t
  end.

(** [template.format(arg)] for a template whose only replacement field is
    [{0}] and which holds no other brace. *)
Fixpoint format0 (t arg : string) : string :=
  match t with
  | EmptyString => EmptyString
  | String c r =>
      match r with
      | String c2 (String c3 r') =>
          if (Nat.eqb (nat_of_ascii c) 123 && Nat.eqb (nat_of_ascii c2) 48
              && Nat.eqb (nat_of_ascii c3) 125)%bool
          then arg +:+ format0 r' arg
          else String c (format0 r arg)
      | _ => String c (format0 r arg)
      end
  end.

(** [textwrap.dedent(text)] as Python 3.0 to 3.12 implement it.  Lines that
    hold only spaces and tabs are emptied ([_whitespace_only_re]); the
    margin is computed by the loop over the leading spaces and tabs of the
    other lines ([_leading_whitespace_re.findall(text)]); when the margin
    is not empty, [re.sub(r'(?m)^' + margin, '', text)] removes it from the
    start of every line that begins with it. *)
Definition is_blank_char (c : ascii) : bool :=
  (Nat.eqb (nat_of_ascii c) 32 || Nat.eqb (nat_of_ascii c) 9)%bool.

(** [line] matches [[ \t]*]. *)
Fixpoint whitespace_only (line : string) : bool :=
  match line with
  | EmptyString => true
  | String c r => (is_blank_char c && whitespace_only r)%bool
  end.

Fixpoint leading_whitespace (line : string) : string :=
  match line with
  | String c r => if is_blank_char c then String c (leading_whitespace r) else EmptyString
  | EmptyString => EmptyString
  end.

(** [for i, (x, y) in enumerate(zip(margin, indent)): if x != y: margin = margin[:i]; break] *)
Fixpoint common_prefix (a b : string) : string :=
  match a, b with
  | String x a', String y b' => if Ascii.eqb x y then String x (common_prefix a' b') else EmptyString
  | _, _ => EmptyString
  end.

(** One turn of the loop [for indent in indents]. *)
Definition next_margin (margin : option string) (indent : string) : option string :=
  match margin with
  | None => Some indent
  | Some m =>
      if String.prefix m indent then Some m
      else if String.prefix indent m then Some indent
      else Some (common_prefix m indent)
  end.

(** [line] without the prefix [m], when it begins with [m]. *)
Fixpoint chop_prefix (m line : string) : option string :=
  match m with
  | EmptyString => Some line
  | String a m' =>
      match line with
      | String b l' => if Ascii.eqb a b then chop_prefix m' l' else None
      | EmptyString => None
      end
  end.

Definition dedent (text : string) : string :=
  let lines := map (fun l => if whitespace_only l then EmptyString else l) (split_nl text) in
  let indents := map leading_whitespace (filter (fun l => negb (whitespace_only l)) lines) in
  match fold_left next_margin indents None with
  | Some (String _ _ as m) =>
      join_nl (map (fun l => match chop_prefix m l with Some r => r | None => l end) lines)
  | _ => join_nl lines
  end.
Definition dq : string := chr 34.
Definition sq : string := chr 39.

(** [str(e.args)] for an [OSError] built by the kernel: the tuple
    [(errno, strerror)], strerror printed with its [repr] quotes. *)
Definition args_repr (errno : Z) (strerror : string) : string :=
  "(" +:+ pretty errno +:+ ", " +:+ sq +:+ strerror +:+ sq +:+ ")".

(** [repr(s)] of a [str] whose characters are the code points 0..255
    (CPython's [unicode_repr]): single quotes unless [s] holds a single
    quote and no double quote; the quote and the backslash escaped;
    [\t \n \r] by name; the other control characters, DEL, 0x80..0xa0
    and the soft hyphen 0xad (the characters [str.isprintable] refuses) as
    [\xhh]. *)
Definition hex_digit (d : nat) : ascii :=
  ascii_of_nat (if Nat.ltb d 10 then 48 + d else 87 + d).

Definition bs : string := chr 92.

Definition repr_char (q c : ascii) : string :=
  let n := nat_of_ascii c in
  if (Ascii.eqb c q || Nat.eqb n 92)%bool then bs +:+ String c EmptyString
  else if Nat.eqb n 9 then bs +:+ "t"
  else if Nat.eqb n 10 then bs +:+ "n"
  else if Nat.eqb n 13 then bs +:+ "r"
  else if (Nat.ltb n 32 || Nat.eqb n 127 || (Nat.leb 128 n && Nat.leb n 160)
           || Nat.eqb n 173)%bool
  then bs +:+ "x" +:+ String (hex_digit (n / 16)) (String (hex_digit (n mod 16)) EmptyString)
  else String c EmptyString.

Fixpoint repr_chars (q : ascii) (s : string) : string :=
  match s with
  | EmptyString => EmptyString
  | String c r => repr_char q c +:+ repr_chars q r
  end.

Fixpoint has_char (n : nat) (s : string) : bool :=
  match s with
  | EmptyString => false
  | String c r => (Nat.eqb (nat_of_ascii c) n || has_char n r)%bool
  end.

Definition py_repr (s : string) : string :=
  let q := if (has_char 39 s && negb (has_char 34 s))%bool then ascii_of_nat 34
           else ascii_of_nat 39 in
  String q (repr_chars q s +:+ String q EmptyString).

(** [os.path.join(a, b)] for two components. *)
Definition path_join (a b : string) : string :=
  match list_ascii_of_string b with
  | c :: _ => if Nat.eqb (nat_of_ascii c) 47 then b
              else match rev (list_ascii_of_string a) with
                   | c' :: _ => if Nat.eqb (nat_of_ascii c') 47 then a +:+ b
                                else a +:+ "/" +:+ b
                   | [] => b
                   end
  | [] => match rev (list_ascii_of_string a) with
          | c' :: _ => if Nat.eqb (nat_of_ascii c') 47 then a else a +:+ "/"
          | [] => a
          end
  end.

End PyStr.

(** ** The operating system as seen by linux.py *)
Module OS.
Import PyStr.

Record file := mkFile { contents : string; mode : Z }.

(** An [OSError]: [errno], [strerror] and, for the calls made on a path
    ([open], [os.remove], [os.stat], [os.chmod]), [filename]. *)
Record oserror := mkOSError { errno : Z; strerror : string; filename : option string }.

Definition ENOENT : oserror := mkOSError 2 "No such file or directory" None.
Definition EACCES : oserror := mkOSError 13 "Permission denied" None.
Definition ESRCH  : oserror := mkOSError 3 "No such process" None.
Definition EPERM  : oserror := mkOSError 1 "Operation not permitted" None.
Definition EAGAIN : oserror := mkOSError 11 "Resource temporarily unavailable" None.

(** The error as raised by a call on the path [p]. *)
Definition at_path (e : oserror) (p : string) : oserror :=
  mkOSError e.(errno) e.(strerror) (Some p).

(** Python exceptions raised on the paths the code takes. *)
Inductive exn :=
| OSError (e : oserror)
| RuntimeError (msg : string)
| ValueError
| KeyError (key : string)
| AttributeError (attr : string)
| OverflowError.

(** Python values returned by the lifecycle methods. *)
Inductive pyval := PyBool (b : bool) | PyNone.

(** Python truth value ([if not result]). *)
Definition truthy (v : pyval) : bool :=
  match v with PyBool b => b | PyNone => false end.

(** One operating-system call, appended to the log when it is issued.
    File calls are logged when they succeed; [EvKill] is logged for every
    [os.kill] call, whatever the kernel answers. *)
Inductive event :=
| EvPrint (s : string)
| EvOpen (path : string) (how : string)
| EvRead (path : string)
| EvWrite (path : string) (data : string)
| EvClose (path : string)
| EvRemove (path : string)
| EvStat (path : string)
| EvChmod (path : string) (m : Z)
| EvKill (pid sig : Z)
| EvSleep (ms : nat)
| EvFork (child : Z)          (* the parent branch exits with [sys.exit(0)] *)
| EvSetsid
| EvUmask (m : Z)
| EvAtexit (fn : string)
| EvRedirectStd
| EvSetuid (uid : Z)
| EvCallback.

Record world := mkWorld {
  files : gmap string file;
  uid : Z;                              (* os.getuid() *)
  umask : Z;
  fs_ok : string -> bool;               (* the kernel lets this process create, write or remove the path *)
  users : string -> option Z;           (* pwd.getpwnam(user).pw_uid *)
  cwd : string;                         (* os.getcwd() *)
  argv0 : string;                       (* sys.argv[0] *)
  executable : string;                  (* sys.executable *)
  self_pid : Z;                         (* os.getpid() *)
  kill_oracle : nat -> option oserror;  (* answer to the next os.kill calls; None: signal delivered *)
  fork_oracle : nat -> oserror + Z;     (* answer to the next os.fork calls; inr pid: the child's pid *)
  stop_requested : bool;                (* the attribute self.stop_requested *)
  log : list event
}.

Definition set_files (w : world) (fs : gmap string file) : world :=
  mkWorld fs w.(uid) w.(umask) w.(fs_ok) w.(users) w.(cwd) w.(argv0) w.(executable)
    w.(self_pid) w.(kill_oracle) w.(fork_oracle) w.(stop_requested) w.(log).

Definition emit (w : world) (e : event) : world :=
  mkWorld w.(files) w.(uid) w.(umask) w.(fs_ok) w.(users) w.(cwd) w.(argv0) w.(executable)
    w.(self_pid) w.(kill_oracle) w.(fork_oracle) w.(stop_requested) (w.(log) ++ [e]).

(** ** An exception-and-state monad *)
Inductive outcome (A : Type) := Ret (a : A) | Exc (e : exn).
Arguments Ret {A} a.
Arguments Exc {A} e.

Definition M (A : Type) : Type := world -> outcome A * world.

Global Instance M_ret : MRet M := fun A a w => (Ret a, w).

Definition bindM {A B : Type} (m : M A) (f : A -> M B) : M B := fun w =>
  match m w with
  | (Ret a, w') => f a w'
  | (Exc e, w') => (Exc e, w')
  end.

Notation "'do' x <- m ; k" := (bindM m (fun x => k))
  (at level 60, m at next level, right associativity).
Notation "'do' m ; k" := (do _ <- m ; k)
  (at level 60, right associativity).

Definition raise {A} (e : exn) : M A := fun w => (Exc e, w).

(** [try: m except ...]: [handler e] is [Some h] when an except clause
    matches [e]. *)
Definition try_except {A} (m : M A) (handler : exn -> option (M A)) : M A :=
  fun w =>
    match m w with
    | (Exc e, w') => match handler e with Some h => h w' | None => (Exc e, w') end
    | r => r
    end.

Definition get : M world := fun w => (Ret w, w).
Definition emit_ (e : event) : M unit := fun w => (Ret tt, emit w e).

(** ** System calls *)
Definition print (s : string) : M unit := emit_ (EvPrint s).

Definition os_path_exists (p : string) : M bool :=
  fun w => (Ret (bool_decide (is_Some (w.(files) !! p))), w).

Definition os_getuid : M Z := fun w => (Ret w.(uid), w).
Definition os_getcwd : M string := fun w => (Ret w.(cwd), w).
Definition os_getpid : M Z := fun w => (Ret w.(self_pid), w).

(** [open(p, 'r').read()].  The model has no read permissions: a file
    that exists can be read.  (The PID file [_start] writes is created
    with mode 0o666, [_start] having set the umask to 0, so every user can
    read it; a PID file some other program left with a mode that denies
    reading would make [open] raise [PermissionError], which the model
    does not cover.) *)
Definition open_read (p : string) : M string :=
  fun w =>
    match w.(files) !! p with
    | Some f => (Ret f.(contents), emit (emit w (EvOpen p "r")) (EvRead p))
    | None => (Exc (OSError (at_path ENOENT p)), w)
    end.

(** [open(p, 'w')] truncates or creates the file (mode [0o666 & ~umask]
    for a new file); [write] then [close] store the data. *)
Definition open_write_close (p data : string) : M unit :=
  fun w =>
    if w.(fs_ok) p then
      let m := match w.(files) !! p with
               | Some f => f.(mode)
               | None => Z.lor 32768 (Z.land 438 (Z.lnot w.(umask)))
               end in
      let w1 := set_files (emit w (EvOpen p "w")) (<[p := mkFile "" m]> w.(files)) in
      let w2 := set_files (emit w1 (EvWrite p data)) (<[p := mkFile data m]> w1.(files)) in
      (Ret tt, emit w2 (EvClose p))
    else (Exc (OSError (at_path EACCES p)), w).

Definition os_remove (p : string) : M unit :=
  fun w =>
    match w.(files) !! p with
    | None => (Exc (OSError (at_path ENOENT p)), w)
    | Some _ =>
        if w.(fs_ok) p then (Ret tt, set_files (emit w (EvRemove p)) (delete p w.(files)))
        else (Exc (OSError (at_path EACCES p)), w)
    end.

(** [os.stat(p).st_mode] *)
Definition os_stat_mode (p : string) : M Z :=
  fun w =>
    match w.(files) !! p with
    | Some f => (Ret f.(mode), emit w (EvStat p))
    | None => (Exc (OSError (at_path ENOENT p)), w)
    end.

Definition os_chmod (p : string) (m : Z) : M unit :=
  fun w =>
    match w.(files) !! p with
    | Some f =>
        if w.(fs_ok) p
        then (Ret tt, set_files (emit w (EvChmod p m)) (<[p := mkFile f.(contents) m]> w.(files)))
        else (Exc (OSError (at_path EPERM p)), w)
    | None => (Exc (OSError (at_path ENOENT p)), w)
    end.

Definition SIGTERM : Z := 15.

(** The values of a C [pid_t] (a 32-bit signed int). *)
Definition pid_t_ok (pid : Z) : bool := (-2147483648 <=? pid) && (pid <=? 2147483647).

(** [os.kill(pid, sig)]: a pid outside [pid_t] raises [OverflowError]
    before any system call; otherwise the call is issued, the oracle gives
    the kernel's answer and moves on to the next call. *)
Definition os_kill (pid sig : Z) : M unit :=
  fun w =>
    if negb (pid_t_ok pid) then (Exc OverflowError, w) else
    let w' := mkWorld w.(files) w.(uid) w.(umask) w.(fs_ok) w.(users) w.(cwd) w.(argv0)
                w.(executable) w.(self_pid) (fun n => w.(kill_oracle) (S n))
                w.(fork_oracle) w.(stop_requested) (w.(log) ++ [EvKill pid sig]) in
    match w.(kill_oracle) O with
    | None => (Ret tt, w')
    | Some e => (Exc (OSError e), w')
    end.

(** [time.sleep(ms / 1000)] *)
Definition time_sleep (ms : nat) : M unit := emit_ (EvSleep ms).

(** [pid = os.fork(); if pid > 0: sys.exit(0)]: the model follows the
    process that goes on running the method, i.e. the child; the parent's
    exit is the [EvFork] event (how that exit ends the process the user
    started is [LinuxProcess.invoker_end]).  A failed fork raises
    [OSError] in the calling process. *)
Definition fork_and_exit_parent : M unit :=
  fun w =>
    match w.(fork_oracle) O with
    | inl e => (Exc (OSError e), w)
    | inr child =>
        (Ret tt, mkWorld w.(files) w.(uid) w.(umask) w.(fs_ok) w.(users) w.(cwd) w.(argv0)
                  w.(executable) child w.(kill_oracle) (fun n => w.(fork_oracle) (S n))
                  w.(stop_requested) (w.(log) ++ [EvFork child]))
    end.

Definition os_setsid : M unit := emit_ EvSetsid.

Definition os_umask (m : Z) : M unit :=
  fun w =>
    (Ret tt, mkWorld w.(files) w.(uid) m w.(fs_ok) w.(users) w.(cwd) w.(argv0) w.(executable)
               w.(self_pid) w.(kill_oracle) w.(fork_oracle) w.(stop_requested)
               (w.(log) ++ [EvUmask m])).

Definition os_setuid (u : Z) : M unit :=
  fun w =>
    if bool_decide (w.(uid) = 0) || bool_decide (w.(uid) = u) then
      (Ret tt, mkWorld w.(files) u w.(umask) w.(fs_ok) w.(users) w.(cwd) w.(argv0) w.(executable)
                 w.(self_pid) w.(kill_oracle) w.(fork_oracle) w.(stop_requested)
                 (w.(log) ++ [EvSetuid u]))
    else (Exc (OSError EPERM), w).

(** [pwd.getpwnam(user).pw_uid]; an unknown user raises [KeyError]. *)
Definition getpwnam_uid (user : string) : M Z :=
  fun w => match w.(users) user with
           | Some u => (Ret u, w)
           | None => (Exc (KeyError user), w)
           end.

Definition set_stop_requested (b : bool) : M unit :=
  fun w =>
    (Ret tt, mkWorld w.(files) w.(uid) w.(umask) w.(fs_ok) w.(users) w.(cwd) w.(argv0)
               w.(executable) w.(self_pid) w.(kill_oracle) w.(fork_oracle) b w.(log)).

End OS.

(** ** [LinuxService] (src/pyservice/linux.py) *)
Module Linux.
Import PyStr OS.

Definition sys_argv0 : M string := fun w => (Ret w.(argv0), w).
Definition sys_executable : M string := fun w => (Ret w.(executable), w).

(** [format(error)] of an [OSError], i.e. [str(error)]:
    [[Errno n] strerror], followed by [: repr(filename)] when the error
    carries a file name. *)
Definition format_oserror (e : oserror) : string :=
  "[Errno " +:+ pretty e.(errno) +:+ "] " +:+ e.(strerror)
  +:+ match e.(filename) with Some p => ": " +:+ py_repr p | None => "" end.

(** [format(error)] of any exception the code catches with [except Exception]. *)
Definition format_exn (e : exn) : string :=
  match e with
  | OSError o => format_oserror o
  | RuntimeError m => m
  | ValueError => "invalid literal for int()"
  | KeyError k => sq +:+ k +:+ sq
  | AttributeError a => "'LinuxService' object has no attribute " +:+ sq +:+ a +:+ sq
  | OverflowError => "signed integer is greater than maximum"
  end.

Definition insufficient_privileges : string :=
  "Insufficient privileges to install service, Please run with administrative rights.".

(** The triple-quoted template of [_install], as written in the source:
    its lines are indented by 28 columns or more, and [{0}] stands for the
    user. *)
Definition start_script_source : string :=
  nl
  +:+ "                            PYTHON_PATH=" +:+ dq +:+ "%PYTHON_PATH%" +:+ dq +:+ nl
  +:+ "                            SERVICE_PATH=" +:+ dq +:+ "%SERVICE_PATH%" +:+ dq +:+ nl
  +:+ nl
  +:+ "                            case $1 in" +:+ nl
  +:+ "                                start)" +:+ nl
  +:+ "                                    $PYTHON_PATH $SERVICE_PATH start --user {0}" +:+ nl
  +:+ "                                    ;;" +:+ nl
  +:+ nl
  +:+ "                                stop)" +:+ nl
  +:+ "                                    $PYTHON_PATH $SERVICE_PATH stop" +:+ nl
  +:+ "                                    ;;" +:+ nl
  +:+ nl
  +:+ "                                restart)" +:+ nl
  +:+ "                                    $PYTHON_PATH $SERVICE_PATH stop" +:+ nl
  +:+ "                                    $PYTHON_PATH $SERVICE_PATH start --user {0}" +:+ nl
  +:+ "                                    ;;" +:+ nl
  +:+ nl
  +:+ "                                *)" +:+ nl
  +:+ "                                    echo 'Unknown action, try; start/stop/restart\n'" +:+ nl
  +:+ "                            esac".

(** The text of the control script before the two [replace] calls:
    ["#!/bin/bash" + textwrap.dedent(template.format(user))]. *)
Definition start_script_template (user : string) : string :=
  "#!/bin/bash" +:+ dedent (format0 start_script_source user).


Section LinuxService.

(** [self.name = func.__name__] *)
Variable name : string.

(** [os.path.join(os.path.join("/var", "run"), self.name + '.pid')] *)
Definition pid_file : string := path_join (path_join "/var" "run") (name +:+ ".pid").

(** ['/etc/init.d/%s' % self.name] *)
Definition control_script : string := "/etc/init.d/" +:+ name.

Definition is_installed : M bool := os_path_exists control_script.

Definition is_running : M bool := os_path_exists pid_file.

(** The hooks [installed], [uninstalled]: [pass], so they return [None]. *)
Definition installed : M pyval := mret PyNone.
Definition uninstalled : M pyval := mret PyNone.

(** [started(user)]: switch to the user, then run [func(self)]. *)
Definition started (user : string) : M pyval :=
  do u <- getpwnam_uid user;
  do os_setuid u;
  do emit_ EvCallback;
  mret PyNone.

(** The first [try] of [_start] and the second one: fork, the parent
    exits; a failing fork is reported and [_start] returns [False]. *)
Definition fork_step (which : string) : M bool :=
  try_except (do fork_and_exit_parent; mret true)
    (fun e => match e with
              | OSError err =>
                  Some (do print ("* Unable to fork parent process (" +:+ which +:+ "): "
                                  +:+ format_oserror err); mret false)
              | _ => None
              end).

Definition _start : M bool :=
  do ok1 <- fork_step "1";
  if negb ok1 then mret false else
  do os_setsid;
  do os_umask 0;
  do ok2 <- fork_step "2";
  if negb ok2 then mret false else
  do pid <- os_getpid;
  do written <- try_except (do open_write_close pid_file (pretty pid +:+ nl); mret true)
                 (fun e => Some (do print ("* Unable to write PID file to `" +:+ pid_file
                                        +:+ "`: " +:+ format_exn e); mret false));
  if negb written then mret false else
  do emit_ (EvAtexit "_clean");
  (* atexit.register(self.service.stopped): the instance has no attribute
     [service] *)
  do raise (A := unit) (AttributeError "service");
  do emit_ EvRedirectStd;
  mret true.

(** [while attempts < 5: os.kill(pid, SIGTERM); time.sleep(0.2); attempts += 1];
    [fuel] only bounds the recursion: the guard [attempts < 5] ends the
    loop when it is called with [attempts = 0] and [fuel >= 5]. *)
Fixpoint kill_loop (fuel : nat) (pid attempts : Z) : M unit :=
  match fuel with
  | O => mret tt
  | S f =>
      if attempts <? 5 then
        do os_kill pid SIGTERM;
        do time_sleep 200;
        kill_loop f pid (attempts + 1)
      else mret tt
  end.

(** [error_message.find("No such process") > 0] *)
Definition no_such_process (e : oserror) : bool :=
  0 <? find (args_repr e.(errno) e.(strerror)) "No such process".

Definition _stop : M bool :=
  do set_stop_requested true;
  do content <- open_read pid_file;
  match py_int (strip content) with
  | None => do print "* Unable to read PID file"; mret false
  | Some pid =>
      do emit_ (EvClose pid_file);
      do os_remove pid_file;
      do r <- try_except (do kill_loop 6 pid 0; mret None)
            (fun e => match e with
                      | OSError err =>
                          Some (if no_such_process err then mret (Some true)
                                else do print ("* Unable to kill the process "
                                               +:+ args_repr err.(errno) err.(strerror));
                                     mret (Some false))
                      | _ => None
                      end);
      match r with
      | Some b => mret b
      | None => do print "* Unable to kill the process due to an unknown reason"; mret false
      end
  end.

Definition _install (user : string) : M bool :=
  do u <- os_getuid;
  if bool_decide (u <> 0) then raise (RuntimeError insufficient_privileges) else
  let start_script := start_script_template user in
  do cwd <- os_getcwd;
  do a0 <- sys_argv0;
  let service_path := path_join cwd a0 in
  do python_path <- sys_executable;
  let start_script := replace start_script "%PYTHON_PATH%" python_path in
  let start_script := replace start_script "%SERVICE_PATH%" service_path in
  do open_write_close control_script start_script;
  do m <- os_stat_mode control_script;
  do os_chmod control_script (Z.lor m 73);
  mret true.

Definition _uninstall : M bool :=
  do u <- os_getuid;
  if bool_decide (u <> 0) then raise (RuntimeError insufficient_privileges) else
  try_except (do os_remove control_script; mret true)
    (fun e => Some (do print ("* Unable to uninstall, failed to remove control script: "
                              +:+ format_exn e); mret false)).

Definition start (user : string) : M pyval :=
  do inst <- is_installed;
  if negb inst then do print "* Not Installed"; mret (PyBool false) else
  do running <- is_running;
  if running then do print "* Already running"; mret (PyBool false) else
  do print ("* Starting " +:+ name);
  do result <- _start;
  if negb result then mret (PyBool false) else
  do started user;
  mret (PyBool result).

Definition stop : M pyval :=
  do running <- is_running;
  if negb running then do print "* Not running"; mret (PyBool false) else
  do print ("* Stopping " +:+ name);
  do result <- _stop;
  if negb result then mret (PyBool false) else
  mret (PyBool result).

Definition install (user : string) : M pyval :=
  do inst <- is_installed;
  if inst then do print "* Already installed"; mret (PyBool false) else
  do print ("* Installing " +:+ name);
  do result <- _install user;
  if negb result then mret (PyBool false) else
  installed.

Definition uninstall : M pyval :=
  do inst <- is_installed;
  if negb inst then do print "* Not installed"; mret (PyBool false) else
  do running <- is_running;
  do stopped_ok <- (if running then do s <- stop; mret (truthy s) else mret true);
  if negb stopped_ok then mret (PyBool false) else
  do print ("* Uninstalling " +:+ name);
  do result <- _uninstall;
  if negb result then mret (PyBool false) else
  do uninstalled;
  mret (PyBool result).

End LinuxService.

(** How [handle_cli] ends after calling the selected method:
    [if not func(...): sys.exit(1)]; an exception is not caught and
    ends the interpreter with a traceback (exit status 1). *)
Inductive cli_end := ExitStatus (code : Z) | Traceback (e : exn).

Definition handle_cli_end (r : outcome pyval) : cli_end :=
  match r with
  | Ret v => if truthy v then ExitStatus 0 else ExitStatus 1
  | Exc e => Traceback e
  end.

End Linux.

(** ** What runs around the lifecycle methods (src/pyservice/linux.py):
    the exit handler [_clean] and the dispatch of [handle_cli]. *)
Module LinuxProcess.
Import PyStr OS Linux.

(** [_clean], registered with [atexit] by [_start]: when the PID file is
    still there it removes it, sleeps one second and restarts the service
    with [os.system(sys.executable + ' ' + service_path + ' --start')].
    [os.system(cmd)] runs [cmd] in a shell; the model returns the command
    lines started that way next to the outcome and the world. *)
Definition _clean (name : string) (w : world) : (outcome unit * world) * list string :=
  match (do ex <- os_path_exists (pid_file name);
         if ex then
           do cwd <- os_getcwd;
           do a0 <- sys_argv0;
           let service_path := path_join cwd a0 in
           do os_remove (pid_file name);
           do time_sleep 1000;
           do exe <- sys_executable;
           mret (Some (exe +:+ " " +:+ service_path +:+ " --start"))
         else mret None) w with
  | (Ret (Some cmd), w') => ((Ret tt, w'), [cmd])
  | (Ret None, w') => ((Ret tt, w'), [])
  | (Exc e, w') => ((Exc e, w'), [])
  end.

(** The bound methods [handle_cli] stores under the key ['func']. *)
Inductive method := MInstall | MUninstall | MStart | MStop | MStarted.

(** A command line accepted by the parser of [handle_cli]: one of the five
    subparsers, with the value of [--user] for the two that declare it
    (it is [required=True] there), or no subcommand at all. *)
Inductive subcommand :=
| SubInstall (user : string)
| SubRemove
| SubStart (user : string)
| SubStop
| SubRun.

(** [vars(parser.parse_args(argv))]: the ['func'] default set by the
    chosen subparser and the ['user'] attribute where it is declared; with
    no subcommand the namespace is empty. *)
Record kwargs := mkKwargs { kw_func : option method; kw_user : option string }.

Definition namespace_of (c : option subcommand) : kwargs :=
  match c with
  | None => mkKwargs None None
  | Some (SubInstall u) => mkKwargs (Some MInstall) (Some u)
  | Some SubRemove => mkKwargs (Some MUninstall) None
  | Some (SubStart u) => mkKwargs (Some MStart) (Some u)
  | Some SubStop => mkKwargs (Some MStop) None
  | Some SubRun => mkKwargs (Some MStarted) None
  end.

(** The [TypeError] of a Python call whose keyword arguments do not fit
    the signature. *)
Inductive call_error :=
| MissingArgument (fn arg : string)
| UnexpectedKeyword (fn arg : string).

(** The call of [func] with the keyword arguments [kwargs], which hold at
    most the key ['user']: [install(self, user)], [start(self, user)] and [started(self, user)]
    need it, [uninstall(self)] and [stop(self)] take no argument. *)
Definition call (name : string) (f : method) (user : option string) : call_error + M pyval :=
  match f, user with
  | MInstall, Some u => inr (install name u)
  | MInstall, None => inl (MissingArgument "install" "user")
  | MUninstall, None => inr (uninstall name)
  | MUninstall, Some _ => inl (UnexpectedKeyword "uninstall" "user")
  | MStart, Some u => inr (start name u)
  | MStart, None => inl (MissingArgument "start" "user")
  | MStop, None => inr (stop name)
  | MStop, Some _ => inl (UnexpectedKeyword "stop" "user")
  | MStarted, Some u => inr (started u)
  | MStarted, None => inl (MissingArgument "started" "user")
  end.

(** How [handle_cli] ends: through [handle_cli_end] once the method has
    run, or with the uncaught [TypeError] of the call itself. *)
Inductive cli_result := CliEnd (e : cli_end) | CliTypeError (err : call_error).

(** [handle_cli(_service, argv)] from the parsed namespace on:
    [if "func" not in kwargs: kwargs["func"] = _service.started],
    [func = kwargs.pop("func")], [if not func(...): sys.exit(1)]. *)
Definition handle_cli (name : string) (c : option subcommand) (w : world) : cli_result * world :=
  let kw := namespace_of c in
  let f := match kw.(kw_func) with Some f => f | None => MStarted end in
  match call name f kw.(kw_user) with
  | inl err => (CliTypeError err, w)
  | inr m => let '(r, w') := m w in (CliEnd (handle_cli_end r), w')
  end.

(** The process the user started runs [handle_cli] like the model's run
    until its first successful [os.fork()] (the first [EvFork] event of the
    run): there [os.fork()] returns the child's pid, so it calls
    [sys.exit(0)], and the [SystemExit] it raises passes [except OSError]
    in [_start] and every caller up to the interpreter, which exits with
    status 0.  Without a successful fork it ends as [handle_cli] does. *)
Definition is_fork (e : event) : bool :=
  match e with EvFork _ => true | _ => false end.

Definition invoker_end (name : string) (c : option subcommand) (w : world) : cli_result :=
  let '(r, w') := handle_cli name c w in
  if existsb is_fork (skipn (length w.(log)) w'.(log)) then CliEnd (ExitStatus 0) else r.

End LinuxProcess.

(** ** [WindowsService] (src/pyservice/windows.py) *)
Module Windows.

Definition SERVICE_STOPPED : Z := 1.
Definition SERVICE_START_PENDING : Z := 2.
Definition SERVICE_STOP_PENDING : Z := 3.
Definition SERVICE_RUNNING : Z := 4.

(** The shared service object, [self], seen by the host's control handler
    thread ([SvcStop]) and the service main thread ([SvcDoRun]). *)
Record svc := mkSvc {
  stop_requested : bool;        (* self.stop_requested *)
  event_set : bool;             (* the state of self.stop_event *)
  reported : list Z;            (* statuses sent with ReportServiceStatus *)
  trace : list string           (* the writes to the shared object, in order *)
}.

(** One atomic action of a thread on the shared object. *)
Inductive action :=
| ReportServiceStatus (status : Z)
| SetEvent                      (* win32event.SetEvent(self.stop_event) *)
| SetStopRequested (b : bool)   (* self.stop_requested = b *)
| StartChild                    (* threading.Thread(target=self.main, ...).start() *)
| Sleep (seconds : nat).

Definition step (a : action) (s : svc) : svc :=
  match a with
  | ReportServiceStatus st =>
      mkSvc s.(stop_requested) s.(event_set) (s.(reported) ++ [st]) (s.(trace) ++ ["report"])
  | SetEvent => mkSvc s.(stop_requested) true s.(reported) (s.(trace) ++ ["event"])
  | SetStopRequested b => mkSvc b s.(event_set) s.(reported) (s.(trace) ++ ["flag"])
  | StartChild => mkSvc s.(stop_requested) s.(event_set) s.(reported) (s.(trace) ++ ["child"])
  | Sleep _ => s
  end.

Definition run (l : list action) (s : svc) : svc := fold_left (fun s a => step a s) l s.

(** [SvcStop], line by line. *)
Definition SvcStop : list action :=
  [ReportServiceStatus SERVICE_STOP_PENDING; SetEvent; SetStopRequested true].

(** The prologue of [SvcDoRun]: report, then start the worker thread. *)
Definition SvcDoRun_prologue : list action :=
  [ReportServiceStatus SERVICE_START_PENDING; ReportServiceStatus SERVICE_RUNNING; StartChild].

(** One test of [while not self.stop_requested: sleep(1)]: [None] when the
    loop exits, [Some (Sleep 1)] when it sleeps again. *)
Definition SvcDoRun_loop_test (s : svc) : option action :=
  if s.(stop_requested) then None else Some (Sleep 1).

(** The state seen by the main thread when the handler thread has run the
    first [k] actions of [SvcStop]. *)
Definition after_stop_prefix (k : nat) (s : svc) : svc := run (firstn k SvcStop) s.

(** Position of the first entry [x] in a trace. *)
Fixpoint index_of (x : string) (l : list string) : option nat :=
  match l with
  | [] => None
  | y :: r => if String.eqb x y then Some O else option_map S (index_of x r)
  end.

End Windows.

(** A concrete world: the superuser, no files yet, every path writable,
    every signal delivered, every fork succeeding. *)
Module Worlds.
Import OS.

Definition root_world : world :=
  mkWorld ∅ 0 18 (fun _ => true)
    (fun u => if String.eqb u "nobody" then Some 65534 else None)
    "/opt/svc" "worker.py" "/usr/bin/python3" 100
    (fun _ => None) (fun n => inr (200 + Z.of_nat n)) false [].

(** [root_world] with the file [p] holding [c] (mode 0o644). *)
Definition with_file (w : world) (p c : string) : world :=
  set_files w (<[p := mkFile c 33188]> w.(files)).


Definition with_fs_ok (w : world) (ok : string -> bool) : world :=
  mkWorld w.(files) w.(uid) w.(umask) ok w.(users) w.(cwd) w.(argv0) w.(executable)
    w.(self_pid) w.(kill_oracle) w.(fork_oracle) w.(stop_requested) w.(log).

Definition with_kills (w : world) (k : nat -> option oserror) : world :=
  mkWorld w.(files) w.(uid) w.(umask) w.(fs_ok) w.(users) w.(cwd) w.(argv0) w.(executable)
    w.(self_pid) k w.(fork_oracle) w.(stop_requested) w.(log).

Definition with_forks (w : world) (f : nat -> oserror + Z) : world :=
  mkWorld w.(files) w.(uid) w.(umask) w.(fs_ok) w.(users) w.(cwd) w.(argv0) w.(executable)
    w.(self_pid) w.(kill_oracle) f w.(stop_requested) w.(log).

(** A daemon that exits as soon as it has received one signal. *)
Definition dies_after_first : nat -> option oserror :=
  fun n => match n with O => None | S _ => Some ESRCH end.

End Worlds.

(** * Properties *)
Module Props.
Import PyStr OS Linux Worlds.

Lemma bindM_ret_inv {A B} (m : M A) (f : A -> M B) w v w' :
  bindM m f w = (Ret v, w') ->
  exists a w1, m w = (Ret a, w1) /\ f a w1 = (Ret v, w').
Proof.
  unfold bindM. destruct (m w) as [[a|e] w1]; intros H.
  - eauto.
  - discriminate.
Qed.

(** C7: [start] on a service whose control script is absent prints
    "* Not Installed", returns [False] and changes no file: in particular
    nothing is created at the PID path. *)
Lemma start_not_installed (name user : string) (w : world)
  (Hnot : w.(files) !! control_script name = None) :
  fst (start name user w) = Ret (PyBool false)
  /\ (snd (start name user w)).(files) = w.(files)
  /\ (snd (start name user w)).(files) !! pid_file name = w.(files) !! pid_file name
  /\ (snd (start name user w)).(log) = w.(log) ++ [EvPrint "* Not Installed"].
Proof.
  unfold start, bindM, is_installed, os_path_exists. rewrite Hnot. simpl.
  repeat split; reflexivity.
Qed.

Lemma start_not_installed_witness :
  root_world.(files) !! control_script "worker" = None
  /\ fst (start "worker" "nobody" root_world) = Ret (PyBool false)
  /\ (snd (start "worker" "nobody" root_world)).(files) !! pid_file "worker" = None.
Proof.
  assert (H : root_world.(files) !! control_script "worker" = None) by reflexivity.
  destruct (start_not_installed "worker" "nobody" root_world H) as (H1 & H2 & H3 & H4).
  split; [exact H|]. split; [exact H1|]. rewrite H3. reflexivity.
Defined.

(** [install] of a fresh service by the superuser, when the kernel accepts
    the script: the script is written and made executable, and the value
    returned is the one of the hook [installed()], i.e. [None]. *)
Lemma install_fresh_returns_none (name user : string) (w : world)
  (Hroot : w.(uid) = 0) (Hok : w.(fs_ok) (control_script name) = true)
  (Hnot : w.(files) !! control_script name = None) :
  fst (install name user w) = Ret PyNone
  /\ is_Some ((snd (install name user w)).(files) !! control_script name).
Proof.
  unfold install, bindM, is_installed, os_path_exists. rewrite Hnot. simpl.
  unfold _install, bindM, os_getuid, os_getcwd, sys_argv0, sys_executable, mret, M_ret.
  simpl. rewrite Hroot. simpl.
  unfold open_write_close. simpl. rewrite Hok. simpl.
  unfold os_stat_mode. simpl. rewrite lookup_insert_eq. simpl.
  unfold os_chmod. simpl. rewrite lookup_insert_eq. simpl. rewrite Hok. simpl.
  split; [reflexivity|]. rewrite lookup_insert_eq. eauto.
Qed.

(** C1 (the hook's value is returned): on the superuser's world with no
    control script, [install] writes the script but returns [None], which
    is falsy, so [handle_cli] ends with [sys.exit(1)]. *)
Lemma install_success_returns_none :
  fst (install "worker" "nobody" root_world) = Ret PyNone
  /\ truthy PyNone = false
  /\ handle_cli_end (fst (install "worker" "nobody" root_world)) = ExitStatus 1
  /\ is_Some ((snd (install "worker" "nobody" root_world)).(files) !! control_script "worker").
Proof.
  destruct (install_fresh_returns_none "worker" "nobody" root_world eq_refl eq_refl eq_refl)
    as [H1 H2].
  rewrite H1. repeat split; auto.
Qed.

(** The signalling loop touches no file and only appends to the log. *)
Lemma kill_loop_frame (fuel : nat) (pid a : Z) (w : world) :
  (snd (kill_loop fuel pid a w)).(files) = w.(files)
  /\ exists l, (snd (kill_loop fuel pid a w)).(log) = w.(log) ++ l.
Proof.
  revert a w. induction fuel as [|fuel IH]; intros a w; simpl.
  - split; [reflexivity|]. exists []. rewrite app_nil_r. reflexivity.
  - destruct (a <? 5); simpl.
    + unfold bindM, os_kill, time_sleep, emit_, emit. simpl.
      destruct (pid_t_ok pid); simpl.
      2:{ split; [reflexivity|]. exists []. rewrite app_nil_r. reflexivity. }
      destruct (kill_oracle w 0); simpl.
      * split; [reflexivity|]. exists [EvKill pid SIGTERM]. reflexivity.
      * destruct (IH (a + 1) (mkWorld (files w) (uid w) (umask w) (fs_ok w) (users w)
            (cwd w) (argv0 w) (executable w) (self_pid w) (fun n => kill_oracle w (S n))
            (fork_oracle w) (stop_requested w) ((log w ++ [EvKill pid SIGTERM]) ++ [EvSleep 200])))
          as [Hf [l Hl]].
        simpl in Hf, Hl. split; [exact Hf|].
        exists ([EvKill pid SIGTERM; EvSleep 200] ++ l). rewrite Hl.
        rewrite <- !app_assoc. reflexivity.
    + split; [reflexivity|]. exists []. rewrite app_nil_r. reflexivity.
Qed.

(** An exception out of the signalling loop is the [OverflowError] of a
    pid outside [pid_t], or an [OSError] answered by the kernel to one of
    the [os.kill] calls. *)
Lemma kill_loop_exc (fuel : nat) (pid a : Z) (w : world) (x : exn) :
  fst (kill_loop fuel pid a w) = Exc x ->
  x = OverflowError \/ exists n e, x = OSError e /\ w.(kill_oracle) n = Some e.
Proof.
  revert a w. induction fuel as [|fuel IH]; intros a w; simpl.
  - discriminate.
  - destruct (a <? 5); simpl; [|discriminate].
    unfold bindM, os_kill, time_sleep, emit_, emit. simpl.
    destruct (pid_t_ok pid); simpl.
    2:{ intros H. injection H as <-. auto. }
    destruct (kill_oracle w 0) as [e|] eqn:Hk; simpl.
    + intros H. injection H as <-. right. exists O, e. auto.
    + intros H. apply IH in H. destruct H as [-> | (n & e & -> & Hn)]; [auto|].
      simpl in Hn. right. exists (S n), e. auto.
Qed.

(** [_stop] succeeds only when a kernel answer to [os.kill] mentions
    "No such process". *)
Lemma stop_true_needs_esrch (name : string) (w : world) :
  fst (_stop name w) = Ret true ->
  exists n e, w.(kill_oracle) n = Some e /\ no_such_process e = true.
Proof.
  unfold _stop, bindM, set_stop_requested, open_read. cbn -[kill_loop].
  destruct (files w !! pid_file name) as [f|]; cbn -[kill_loop]; [|discriminate].
  destruct (py_int (strip (contents f))) as [pid|]; cbn -[kill_loop].
  2:{ unfold print, emit_, mret, M_ret. cbn -[kill_loop]. discriminate. }
  unfold emit_, os_remove, emit. cbn -[kill_loop].
  destruct (files w !! pid_file name) as [g|]; cbn -[kill_loop]; [|discriminate].
  destruct (fs_ok w (pid_file name)); cbn -[kill_loop]; [|discriminate].
  unfold try_except.
  match goal with |- context [kill_loop 6 pid 0 ?w0] => set (w1 := w0) end.
  pose proof (kill_loop_exc 6 pid 0 w1) as Hexc.
  destruct (kill_loop 6 pid 0 w1) as [[u|x] w2] eqn:Hl; cbn -[kill_loop].
  - unfold print, emit_, mret, M_ret. cbn -[kill_loop]. discriminate.
  - destruct (Hexc x eq_refl) as [-> | (n & e & -> & Hn)]; [cbn; discriminate|].
    cbn -[kill_loop] in Hn.
    destruct (no_such_process e) eqn:Hns; cbn -[kill_loop].
    + intros _. exists n, e. auto.
    + unfold print, emit_, mret, M_ret. cbn -[kill_loop]. discriminate.
Qed.

(** [k] rounds of the loop body: one signal, one 0.2 s sleep. *)
Definition kill_rounds (pid : Z) (k : nat) : list event :=
  concat (List.repeat [EvKill pid SIGTERM; EvSleep 200] k).

(** When every signal is delivered, the loop runs until [attempts = 5]. *)
Lemma kill_loop_delivered (fuel : nat) (pid a : Z) (w : world) :
  pid_t_ok pid = true -> (forall n, w.(kill_oracle) n = None) ->
  0 <= a <= 5 -> (Z.to_nat (5 - a) <= fuel)%nat ->
  fst (kill_loop fuel pid a w) = Ret tt
  /\ (snd (kill_loop fuel pid a w)).(files) = w.(files)
  /\ (snd (kill_loop fuel pid a w)).(log) = w.(log) ++ kill_rounds pid (Z.to_nat (5 - a)).
Proof.
  revert a w. induction fuel as [|fuel IH]; intros a w Hpid Hk Ha Hf.
  - assert (a = 5) as -> by lia. simpl. rewrite app_nil_r. auto.
  - simpl. destruct (a <? 5) eqn:Hlt.
    + apply Z.ltb_lt in Hlt.
      unfold bindM, os_kill, time_sleep, emit_, emit. simpl. rewrite Hpid, Hk. simpl.
      destruct (IH (a + 1) (mkWorld (files w) (uid w) (umask w) (fs_ok w) (users w)
            (cwd w) (argv0 w) (executable w) (self_pid w) (fun n => kill_oracle w (S n))
            (fork_oracle w) (stop_requested w) ((log w ++ [EvKill pid SIGTERM]) ++ [EvSleep 200])))
          as (H1 & H2 & H3); simpl; [exact Hpid | intros n; apply Hk | lia | lia |].
      split; [exact H1|]. split; [exact H2|]. rewrite H3.
      replace (Z.to_nat (5 - a)) with (S (Z.to_nat (5 - (a + 1)))) by lia.
      simpl. rewrite <- !app_assoc. reflexivity.
    + apply Z.ltb_ge in Hlt. assert (a = 5) as -> by lia. simpl.
      rewrite app_nil_r. auto.
Qed.

(** [_stop] against a process that receives every signal. *)
Lemma stop_routine_all_delivered (name : string) (w : world) (f : file) (pid : Z)
  (Hf : w.(files) !! pid_file name = Some f)
  (Hp : py_int (strip f.(contents)) = Some pid)
  (Hok : w.(fs_ok) (pid_file name) = true)
  (Hpid : pid_t_ok pid = true)
  (Hk : forall n, w.(kill_oracle) n = None) :
  fst (_stop name w) = Ret false
  /\ (snd (_stop name w)).(log) =
     w.(log) ++ [EvOpen (pid_file name) "r"; EvRead (pid_file name);
                 EvClose (pid_file name); EvRemove (pid_file name)]
            ++ kill_rounds pid 5
            ++ [EvPrint "* Unable to kill the process due to an unknown reason"].
Proof.
  unfold _stop, bindM, set_stop_requested, open_read. cbn -[kill_loop].
  rewrite Hf. cbn -[kill_loop]. rewrite Hp. cbn -[kill_loop].
  unfold os_remove. cbn -[kill_loop]. rewrite Hf. cbn -[kill_loop]. rewrite Hok. cbn -[kill_loop].
  unfold try_except.
  match goal with |- context [kill_loop 6 pid 0 ?w0] => set (w1 := w0) end.
  destruct (kill_loop_delivered 6 pid 0 w1) as (H1 & H2 & H3);
    [exact Hpid | exact Hk | lia | simpl; lia |].
  destruct (kill_loop 6 pid 0 w1) as [r w2]. simpl in H1, H2, H3. subst r. simpl.
  split; [reflexivity|]. rewrite H3. simpl. rewrite <- !app_assoc. reflexivity.
Qed.

(** C2: against a daemon that never dies the termination routine [_stop]
    never reports success.  Whenever no kernel answer to [os.kill] reports
    "No such process", [_stop] does not return [True]; and when the PID
    file parses (to a valid [pid_t]), can be removed, and every signal is delivered (the process
    is still there each time), [_stop] sends SIGTERM exactly five times,
    each followed by a 0.2 s sleep, then returns [False]. *)
Theorem stop_never_dies_fails (name : string) (w : world) :
  ((forall n e, w.(kill_oracle) n = Some e -> no_such_process e = false) ->
   fst (_stop name w) <> Ret true)
  /\ (forall (f : file) (pid : Z),
        w.(files) !! pid_file name = Some f ->
        py_int (strip f.(contents)) = Some pid ->
        w.(fs_ok) (pid_file name) = true ->
        pid_t_ok pid = true ->
        (forall n, w.(kill_oracle) n = None) ->
        fst (_stop name w) = Ret false
        /\ (snd (_stop name w)).(log) =
           w.(log) ++ [EvOpen (pid_file name) "r"; EvRead (pid_file name);
                       EvClose (pid_file name); EvRemove (pid_file name);
                       EvKill pid SIGTERM; EvSleep 200; EvKill pid SIGTERM; EvSleep 200;
                       EvKill pid SIGTERM; EvSleep 200; EvKill pid SIGTERM; EvSleep 200;
                       EvKill pid SIGTERM; EvSleep 200;
                       EvPrint "* Unable to kill the process due to an unknown reason"]).
Proof.
  split.
  - intros Hno Htrue. destruct (stop_true_needs_esrch name w Htrue) as (n & e & Hn & He).
    rewrite (Hno n e Hn) in He. discriminate.
  - intros f pid Hf Hp Hok Hpid Hk.
    destruct (stop_routine_all_delivered name w f pid Hf Hp Hok Hpid Hk) as [H1 H2].
    split; [exact H1|]. rewrite H2. reflexivity.
Qed.

Lemma stop_never_dies_fails_witness :
  let w := with_file root_world (pid_file "worker") ("123" +:+ nl) in
  fst (_stop "worker" w) = Ret false
  /\ (snd (_stop "worker" w)).(log) =
     [EvOpen "/var/run/worker.pid" "r"; EvRead "/var/run/worker.pid";
      EvClose "/var/run/worker.pid"; EvRemove "/var/run/worker.pid";
      EvKill 123 SIGTERM; EvSleep 200; EvKill 123 SIGTERM; EvSleep 200;
      EvKill 123 SIGTERM; EvSleep 200; EvKill 123 SIGTERM; EvSleep 200;
      EvKill 123 SIGTERM; EvSleep 200;
      EvPrint "* Unable to kill the process due to an unknown reason"]
  /\ fst (_stop "worker" w) <> Ret true.
Proof.
  intros w.
  destruct (stop_never_dies_fails "worker" w) as [Hgen Hdel].
  destruct (Hdel (mkFile ("123" +:+ nl) 33188) 123) as [H1 H2];
    [reflexivity | reflexivity | reflexivity | reflexivity | intros n; reflexivity |].
  split; [exact H1|]. split; [exact H2|].
  apply Hgen. intros n e He. discriminate.
Defined.

(** A daemon that is gone after the first signal: the second [os.kill]
    gets the kernel's answer and the loop stops there. *)
Lemma kill_loop_gone_after_first (fuel : nat) (pid : Z) (w : world) (e : oserror) :
  pid_t_ok pid = true -> w.(kill_oracle) 0%nat = None -> w.(kill_oracle) 1%nat = Some e ->
  fst (kill_loop (S (S fuel)) pid 0 w) = Exc (OSError e)
  /\ (snd (kill_loop (S (S fuel)) pid 0 w)).(files) = w.(files)
  /\ (snd (kill_loop (S (S fuel)) pid 0 w)).(log)
     = w.(log) ++ [EvKill pid SIGTERM; EvSleep 200; EvKill pid SIGTERM].
Proof.
  intros Hpid H0 H1. simpl.
  unfold bindM, os_kill, time_sleep, emit_, emit. simpl. rewrite Hpid, H0. simpl.
  rewrite ?Hpid, H1. simpl.
  split; [reflexivity|]. split; [reflexivity|]. rewrite <- !app_assoc. reflexivity.
Qed.

(** C5: for a PID within [pid_t], against a daemon that exits as soon as it has received the first
    SIGTERM (the first [os.kill] is delivered, the next one is answered
    with an error reporting "No such process"), [_stop] returns [True]
    after a single round of the loop: one signal delivered, one 0.2 s
    sleep, and the probing [os.kill] that finds the process gone. *)
Theorem stop_dies_after_first_signal (name : string) (w : world) (f : file) (pid : Z)
  (e : oserror)
  (Hf : w.(files) !! pid_file name = Some f)
  (Hp : py_int (strip f.(contents)) = Some pid)
  (Hok : w.(fs_ok) (pid_file name) = true)
  (Hpid : pid_t_ok pid = true)
  (H0 : w.(kill_oracle) 0%nat = None)
  (H1 : w.(kill_oracle) 1%nat = Some e)
  (He : no_such_process e = true) :
  fst (_stop name w) = Ret true
  /\ (snd (_stop name w)).(log) =
     w.(log) ++ [EvOpen (pid_file name) "r"; EvRead (pid_file name);
                 EvClose (pid_file name); EvRemove (pid_file name);
                 EvKill pid SIGTERM; EvSleep 200; EvKill pid SIGTERM].
Proof.
  unfold _stop, bindM, set_stop_requested, open_read. cbn -[kill_loop].
  rewrite Hf. cbn -[kill_loop]. rewrite Hp. cbn -[kill_loop].
  unfold os_remove. cbn -[kill_loop]. rewrite Hf. cbn -[kill_loop]. rewrite Hok. cbn -[kill_loop].
  unfold try_except.
  match goal with |- context [kill_loop 6 pid 0 ?w0] => set (w1 := w0) end.
  destruct (kill_loop_gone_after_first 4 pid w1 e Hpid H0 H1) as (R1 & R2 & R3).
  destruct (kill_loop 6 pid 0 w1) as [r w2]. simpl in R1, R2, R3. subst r. simpl.
  rewrite He. simpl. split; [reflexivity|]. rewrite R3. simpl. rewrite <- !app_assoc. reflexivity.
Qed.

Lemma stop_dies_after_first_signal_witness :
  let w := with_kills (with_file root_world (pid_file "worker") ("4242" +:+ nl)) dies_after_first in
  no_such_process ESRCH = true
  /\ fst (_stop "worker" w) = Ret true
  /\ (snd (_stop "worker" w)).(log) =
     [EvOpen "/var/run/worker.pid" "r"; EvRead "/var/run/worker.pid";
      EvClose "/var/run/worker.pid"; EvRemove "/var/run/worker.pid";
      EvKill 4242 SIGTERM; EvSleep 200; EvKill 4242 SIGTERM].
Proof.
  intros w.
  assert (He : no_such_process ESRCH = true) by reflexivity.
  destruct (stop_dies_after_first_signal "worker" w (mkFile ("4242" +:+ nl) 33188) 4242 ESRCH
              eq_refl eq_refl eq_refl eq_refl eq_refl eq_refl He) as [R1 R2].
  split; [exact He|]. split; [exact R1|]. exact R2.
Defined.

(** The shape of [stop] on a service whose PID file exists and parses:
    after reading the file, the next system call is [os.remove] of the PID
    file; if the kernel refuses it the [OSError] escapes and nothing else
    happens, otherwise the file is gone and stays gone. *)
Lemma stop_parsed_shape (name : string) (w : world) (f : file) (pid : Z)
  (Hf : w.(files) !! pid_file name = Some f)
  (Hp : py_int (strip f.(contents)) = Some pid) :
  let p := pid_file name in
  let pre := [EvPrint ("* Stopping " +:+ name); EvOpen p "r"; EvRead p; EvClose p] in
  (w.(fs_ok) p = false ->
     fst (stop name w) = Exc (OSError (at_path EACCES (pid_file name)))
     /\ (snd (stop name w)).(log) = w.(log) ++ pre
     /\ (snd (stop name w)).(files) = w.(files))
  /\ (w.(fs_ok) p = true ->
     (snd (stop name w)).(files) = delete p w.(files)
     /\ exists rest, (snd (stop name w)).(log) = w.(log) ++ pre ++ EvRemove p :: rest).
Proof.
  intros p pre. subst p pre.
  unfold stop, bindM, is_running, os_path_exists. rewrite Hf. cbn -[kill_loop _stop].
  unfold print, emit_, _stop, bindM, set_stop_requested, open_read. cbn -[kill_loop].
  rewrite Hf. cbn -[kill_loop]. rewrite Hp. cbn -[kill_loop].
  unfold os_remove. cbn -[kill_loop]. rewrite Hf. cbn -[kill_loop].
  split.
  - intros Hno. rewrite Hno. cbn. split; [reflexivity|]. split; [|reflexivity].
    rewrite <- !app_assoc. reflexivity.
  - intros Hok. rewrite Hok. cbn -[kill_loop]. unfold try_except.
    match goal with |- context [kill_loop 6 pid 0 ?w0] => set (w1 := w0) end.
    destruct (kill_loop_frame 6 pid 0 w1) as [Hfr [l Hl]].
    destruct (kill_loop 6 pid 0 w1) as [[u|x] w2]; simpl in Hfr, Hl.
    + cbn. rewrite Hfr. split; [reflexivity|].
      exists (l ++ [EvPrint "* Unable to kill the process due to an unknown reason"]).
      rewrite Hl. simpl. rewrite <- !app_assoc. reflexivity.
    + destruct x as [err| | | | |]; cbn; try (rewrite Hfr; split; [reflexivity|];
        exists l; rewrite Hl; simpl; rewrite <- !app_assoc; reflexivity).
      destruct (no_such_process err); cbn; rewrite Hfr; (split; [reflexivity|]).
      * exists l. rewrite Hl. simpl. rewrite <- !app_assoc. reflexivity.
      * eexists. rewrite Hl. simpl. rewrite <- !app_assoc. reflexivity.
Qed.

(** C3: on a stop whose PID file exists and parses, the only system calls
    before the removal of the PID file are the reads of that file; every
    later call, in particular every [os.kill], comes after the removal.
    When the kernel refuses the removal, the [OSError] ends the stop and no
    signal is sent at all.  (The attribute [self.stop_requested] of the
    stopping process is set first; it is process-local, not shared state.) *)
Theorem stop_removes_pid_file_first (name : string) (w : world) (f : file) (pid : Z)
  (Hf : w.(files) !! pid_file name = Some f)
  (Hp : py_int (strip f.(contents)) = Some pid) :
  let p := pid_file name in
  exists rest,
    (snd (stop name w)).(log)
      = w.(log) ++ [EvPrint ("* Stopping " +:+ name); EvOpen p "r"; EvRead p; EvClose p] ++ rest
    /\ ((rest = [] /\ fst (stop name w) = Exc (OSError (at_path EACCES (pid_file name))))
        \/ (exists rest', rest = EvRemove p :: rest'
                          /\ (snd (stop name w)).(files) !! p = None)).
Proof.
  intros p.
  destruct (stop_parsed_shape name w f pid Hf Hp) as [Hno Hyes].
  destruct (w.(fs_ok) (pid_file name)) eqn:Hok.
  - destruct (Hyes eq_refl) as [Hfiles [rest Hlog]].
    exists (EvRemove p :: rest). split.
    + rewrite Hlog. reflexivity.
    + right. exists rest. split; [reflexivity|]. rewrite Hfiles. apply lookup_delete_eq.
  - destruct (Hno eq_refl) as (R & Hlog & _).
    exists []. split.
    + rewrite Hlog, app_nil_r. reflexivity.
    + left. auto.
Qed.

Lemma stop_removes_pid_file_first_witness :
  let w := with_file root_world (pid_file "worker") ("123" +:+ nl) in
  exists rest,
    (snd (stop "worker" w)).(log)
      = [EvPrint "* Stopping worker"; EvOpen "/var/run/worker.pid" "r";
         EvRead "/var/run/worker.pid"; EvClose "/var/run/worker.pid"] ++ rest
    /\ ((rest = [] /\ fst (stop "worker" w) = Exc (OSError (at_path EACCES "/var/run/worker.pid")))
        \/ (exists rest', rest = EvRemove "/var/run/worker.pid" :: rest'
                          /\ (snd (stop "worker" w)).(files) !! "/var/run/worker.pid" = None)).
Proof.
  intros w.
  exact (stop_removes_pid_file_first "worker" w (mkFile ("123" +:+ nl) 33188) 123
           eq_refl eq_refl).
Defined.

(** C10, as stated, fails when the kernel refuses [os.remove] on the PID
    file: the stop ends with the [OSError] and the PID file is still there. *)
Lemma stop_remove_refused_keeps_pid_file :
  let w := with_fs_ok (with_file root_world (pid_file "worker") ("123" +:+ nl)) (fun _ => false) in
  fst (stop "worker" w) = Exc (OSError (at_path EACCES "/var/run/worker.pid"))
  /\ is_Some ((snd (stop "worker" w)).(files) !! pid_file "worker")
  /\ fst (is_running "worker" (snd (stop "worker" w))) = Ret true.
Proof.
  vm_compute. split; [reflexivity|]. split; [eexists; reflexivity|reflexivity].
Qed.

(** C10 (amended): on a stop whose PID file exists and parses as an
    integer, the only calls before the removal of the PID file are the
    reads of that file, so when the removal succeeds it comes before any
    signal, whatever the signals then yield.  After such a stop that
    returns [False], [is_running()] is false and a second [stop] prints
    "* Not running" and returns [False]; a failed stop happens in
    particular when the process receives all five signals (its PID within
    [pid_t]) and is still alive.  When the kernel refuses the removal,
    [stop] raises that [OSError] after the reads, sends no signal and
    leaves the files as they were. *)
Theorem stop_failed_not_atomic (name : string) (w : world) (f : file) (pid : Z)
  (Hf : w.(files) !! pid_file name = Some f)
  (Hp : py_int (strip f.(contents)) = Some pid) :
  let p := pid_file name in
  let pre := [EvPrint ("* Stopping " +:+ name); EvOpen p "r"; EvRead p; EvClose p] in
  (w.(fs_ok) p = true ->
     (exists rest, (snd (stop name w)).(log) = w.(log) ++ pre ++ EvRemove p :: rest)
     /\ (snd (stop name w)).(files) !! p = None
     /\ fst (is_running name (snd (stop name w))) = Ret false
     /\ (fst (stop name w) = Ret (PyBool false) ->
         stop name (snd (stop name w))
         = (Ret (PyBool false), emit (snd (stop name w)) (EvPrint "* Not running")))
     /\ (pid_t_ok pid = true -> (forall n, w.(kill_oracle) n = None) ->
         fst (stop name w) = Ret (PyBool false)))
  /\ (w.(fs_ok) p = false ->
     fst (stop name w) = Exc (OSError (at_path EACCES p))
     /\ (snd (stop name w)).(log) = w.(log) ++ pre
     /\ (snd (stop name w)).(files) = w.(files)).
Proof.
  intros p pre.
  destruct (stop_parsed_shape name w f pid Hf Hp) as [Hno Hyes].
  split; [|exact Hno].
  intros Hok.
  destruct (Hyes Hok) as [Hfiles Hlog].
  assert (Hgone : (snd (stop name w)).(files) !! pid_file name = None)
    by (rewrite Hfiles; apply lookup_delete_eq).
  split; [exact Hlog|].
  split; [exact Hgone|].
  split; [unfold is_running, os_path_exists; simpl; rewrite Hgone; reflexivity|].
  split.
  - intros _. unfold stop at 1, bindM at 1, is_running, os_path_exists.
    rewrite Hgone. reflexivity.
  - intros Hpid Hk. unfold stop at 1, bindM at 1, is_running at 1, os_path_exists at 1.
    rewrite Hf. cbn -[_stop].
    assert (Hf' : (emit w (EvPrint ("* Stopping " +:+ name))).(files) !! pid_file name = Some f)
      by exact Hf.
    destruct (stop_routine_all_delivered name (emit w (EvPrint ("* Stopping " +:+ name))) f pid
                Hf' Hp Hok Hpid Hk) as [R _].
    unfold bindM. cbn -[_stop].
    destruct (_stop name (emit w (EvPrint ("* Stopping " +:+ name)))) as [r w2].
    simpl in R. subst r. reflexivity.
Qed.

Lemma stop_failed_not_atomic_witness :
  let w := with_file root_world (pid_file "worker") ("123" +:+ nl) in
  let w' := with_fs_ok w (fun _ => false) in
  (snd (stop "worker" w)).(files) !! pid_file "worker" = None
  /\ fst (stop "worker" w) = Ret (PyBool false)
  /\ fst (stop "worker" (snd (stop "worker" w))) = Ret (PyBool false)
  /\ fst (stop "worker" w') = Exc (OSError (at_path EACCES "/var/run/worker.pid"))
  /\ (snd (stop "worker" w')).(files) = w'.(files).
Proof.
  intros w w'.
  destruct (stop_failed_not_atomic "worker" w (mkFile ("123" +:+ nl) 33188) 123
              eq_refl eq_refl) as [Hyes _].
  destruct (Hyes eq_refl) as (_ & H1 & _ & H3 & H4).
  destruct (stop_failed_not_atomic "worker" w' (mkFile ("123" +:+ nl) 33188) 123
              eq_refl eq_refl) as [_ Hno].
  destruct (Hno eq_refl) as (E & _ & F).
  assert (Hfail : fst (stop "worker" w) = Ret (PyBool false)) by (apply H4; reflexivity).
  split; [exact H1|]. split; [exact Hfail|]. split; [rewrite (H3 Hfail); reflexivity|].
  split; [exact E|exact F].
Defined.

(** C6: in the daemonization sequence of [start], a failing [os.fork]
    (the first or the second one) makes [start] return [False] without
    changing any file; the PID file can only change when both forks have
    succeeded. *)
Theorem start_fork_failure_no_pid (name user : string) (w : world) :
  (forall e, w.(fork_oracle) 0%nat = inl e ->
     fst (start name user w) = Ret (PyBool false)
     /\ (snd (start name user w)).(files) = w.(files))
  /\ (forall c e, w.(fork_oracle) 0%nat = inr c -> w.(fork_oracle) 1%nat = inl e ->
     fst (start name user w) = Ret (PyBool false)
     /\ (snd (start name user w)).(files) = w.(files))
  /\ ((snd (start name user w)).(files) !! pid_file name <> w.(files) !! pid_file name ->
      exists c1 c2, w.(fork_oracle) 0%nat = inr c1 /\ w.(fork_oracle) 1%nat = inr c2).
Proof.
  assert (P1 : forall e, w.(fork_oracle) 0%nat = inl e ->
     fst (start name user w) = Ret (PyBool false)
     /\ (snd (start name user w)).(files) = w.(files)).
  { intros e He. unfold start, bindM, is_installed, is_running, os_path_exists.
    destruct (files w !! control_script name); cbn; [|auto].
    destruct (files w !! pid_file name); cbn; [auto|].
    unfold _start, fork_step, try_except, bindM, fork_and_exit_parent. cbn.
    rewrite He. cbn. auto. }
  assert (P2 : forall c e, w.(fork_oracle) 0%nat = inr c -> w.(fork_oracle) 1%nat = inl e ->
     fst (start name user w) = Ret (PyBool false)
     /\ (snd (start name user w)).(files) = w.(files)).
  { intros c e Hc He. unfold start, bindM, is_installed, is_running, os_path_exists.
    destruct (files w !! control_script name); cbn; [|auto].
    destruct (files w !! pid_file name); cbn; [auto|].
    unfold _start, fork_step, try_except, bindM, fork_and_exit_parent. cbn.
    rewrite Hc. cbn. rewrite He. cbn. auto. }
  split; [exact P1|]. split; [exact P2|].
  intros Hchg.
  destruct (fork_oracle w 0) as [e|c1] eqn:H0.
  - destruct (P1 e eq_refl) as [_ Hs]. rewrite Hs in Hchg. congruence.
  - destruct (fork_oracle w 1) as [e|c2] eqn:H1.
    + destruct (P2 c1 e eq_refl eq_refl) as [_ Hs]. rewrite Hs in Hchg. congruence.
    + eauto.
Qed.

Lemma start_fork_failure_no_pid_witness :
  let w := with_file root_world (control_script "worker") "#!/bin/bash" in
  let w1 := with_forks w (fun _ => inl EAGAIN) in
  let w2 := with_forks w (fun n => match n with O => inr 4000 | _ => inl EAGAIN end) in
  fst (start "worker" "nobody" w1) = Ret (PyBool false)
  /\ (snd (start "worker" "nobody" w1)).(files) !! pid_file "worker" = None
  /\ fst (start "worker" "nobody" w2) = Ret (PyBool false)
  /\ (snd (start "worker" "nobody" w2)).(files) !! pid_file "worker" = None
  /\ (exists c1 c2, w.(fork_oracle) 0%nat = inr c1 /\ w.(fork_oracle) 1%nat = inr c2).
Proof.
  intros w w1 w2.
  destruct (start_fork_failure_no_pid "worker" "nobody" w1) as [A1 _].
  destruct (start_fork_failure_no_pid "worker" "nobody" w2) as [_ [B2 _]].
  destruct (start_fork_failure_no_pid "worker" "nobody" w) as [_ [_ C3]].
  destruct (A1 EAGAIN eq_refl) as [A1r A1f].
  destruct (B2 4000 EAGAIN eq_refl eq_refl) as [B2r B2f].
  split; [exact A1r|]. split; [rewrite A1f; reflexivity|].
  split; [exact B2r|]. split; [rewrite B2f; reflexivity|].
  apply C3. vm_compute. discriminate.
Defined.

Lemma uninstall_step_true_removes (name : string) (w w' : world) :
  _uninstall name w = (Ret true, w') -> w'.(files) !! control_script name = None.
Proof.
  unfold _uninstall, bindM, os_getuid. simpl.
  destruct (bool_decide (uid w <> 0)); simpl; [discriminate|].
  unfold try_except, bindM, os_remove.
  destruct (files w !! control_script name); simpl.
  - destruct (fs_ok w (control_script name)); simpl.
    + intros H. injection H as <-. simpl. apply lookup_delete_eq.
    + discriminate.
  - discriminate.
Qed.

Lemma install_step_true_writes (name user : string) (w w' : world) :
  _install name user w = (Ret true, w') -> is_Some (w'.(files) !! control_script name).
Proof.
  unfold _install, bindM, os_getuid. simpl.
  destruct (bool_decide (uid w <> 0)); simpl; [discriminate|].
  unfold open_write_close. simpl.
  destruct (fs_ok w (control_script name)) eqn:Hok; simpl; [|discriminate].
  unfold os_stat_mode. simpl. rewrite lookup_insert_eq. simpl.
  unfold os_chmod. simpl. rewrite lookup_insert_eq. simpl. rewrite Hok. simpl.
  intros H. injection H as <-. simpl. rewrite lookup_insert_eq. eauto.
Qed.

(** C8: whenever [install] returns (it returns [False] on an installed
    service and the hook's value otherwise) the control script exists, so
    [is_installed()] is true; whenever [uninstall] returns [True] the
    control script is gone, so [is_installed()] is false.  Both are read
    from the file system. *)
Theorem install_uninstall_is_installed (name user : string) (w : world) :
  (forall v w', install name user w = (Ret v, w') -> fst (is_installed name w') = Ret true)
  /\ (forall w', uninstall name w = (Ret (PyBool true), w') ->
        fst (is_installed name w') = Ret false).
Proof.
  split.
  - intros v w' H. unfold is_installed, os_path_exists. simpl.
    unfold install, bindM at 1, is_installed, os_path_exists in H. simpl in H.
    destruct (files w !! control_script name) as [c|] eqn:Hc; simpl in H.
    + unfold bindM, print, emit_, mret, M_ret in H. simpl in H.
      injection H as _ <-. simpl. rewrite Hc. reflexivity.
    + unfold bindM at 1, print, emit_ in H. simpl in H.
      apply bindM_ret_inv in H. destruct H as (b & w1 & H1 & H2).
      destruct b; simpl in H2.
      * unfold installed, mret, M_ret in H2. injection H2 as _ <-.
        destruct (install_step_true_writes name user _ w1 H1) as [x Hx].
        rewrite Hx. reflexivity.
      * unfold mret, M_ret in H2. injection H2 as <- <-.
        exfalso. revert H1. unfold _install, bindM, os_getuid. simpl.
        destruct (bool_decide (uid w <> 0)); simpl; [discriminate|].
        unfold open_write_close. simpl.
        destruct (fs_ok w (control_script name)) eqn:Hok; simpl; [|discriminate].
        unfold os_stat_mode. simpl. rewrite lookup_insert_eq. simpl.
        unfold os_chmod. simpl. rewrite lookup_insert_eq. simpl. rewrite Hok. simpl. discriminate.
  - intros w' H. unfold uninstall in H.
    apply bindM_ret_inv in H. destruct H as (inst & w1 & _ & H).
    destruct inst; simpl in H.
    2:{ unfold bindM, print, emit_, mret, M_ret in H. simpl in H. discriminate. }
    apply bindM_ret_inv in H. destruct H as (running & w2 & _ & H).
    apply bindM_ret_inv in H. destruct H as (ok & w3 & _ & H).
    destruct ok; simpl in H; [|unfold mret, M_ret in H; discriminate].
    apply bindM_ret_inv in H. destruct H as (u & w4 & _ & H).
    apply bindM_ret_inv in H. destruct H as (result & w5 & Hu & H).
    destruct result; simpl in H; [|unfold mret, M_ret in H; discriminate].
    unfold bindM, uninstalled, mret, M_ret in H. simpl in H. injection H as <-.
    unfold is_installed, os_path_exists. simpl.
    rewrite (uninstall_step_true_removes name w4 w5 Hu). reflexivity.
Qed.

Lemma install_uninstall_is_installed_witness :
  let w := snd (install "worker" "nobody" root_world) in
  install "worker" "nobody" root_world = (Ret PyNone, w)
  /\ fst (is_installed "worker" w) = Ret true
  /\ uninstall "worker" w = (Ret (PyBool true), snd (uninstall "worker" w))
  /\ fst (is_installed "worker" (snd (uninstall "worker" w))) = Ret false.
Proof.
  intros w.
  destruct (install_uninstall_is_installed "worker" "nobody" root_world) as [I _].
  destruct (install_uninstall_is_installed "worker" "nobody" w) as [_ U].
  assert (Hi : install "worker" "nobody" root_world = (Ret PyNone, w))
    by (subst w; vm_compute; reflexivity).
  assert (Hu : uninstall "worker" w = (Ret (PyBool true), snd (uninstall "worker" w)))
    by (subst w; vm_compute; reflexivity).
  split; [exact Hi|]. split; [exact (I PyNone w Hi)|].
  split; [exact Hu|]. exact (U _ Hu).
Defined.




End Props.

Module WindowsProps.
Import Windows.

Definition idle : svc := mkSvc false false [] [].

(** C9, as stated, fails: [SvcStop] signals the stop event before it
    writes [stop_requested]. *)
Lemma svc_stop_event_before_flag :
  index_of "event" (run SvcStop idle).(trace) = Some 1%nat
  /\ index_of "flag" (run SvcStop idle).(trace) = Some 2%nat
  /\ ~ (exists i j, index_of "flag" (run SvcStop idle).(trace) = Some i
                    /\ index_of "event" (run SvcStop idle).(trace) = Some j /\ (i < j)%nat).
Proof.
  split; [reflexivity|]. split; [reflexivity|].
  intros (i & j & Hi & Hj & Hlt). vm_compute in Hi, Hj.
  injection Hi as <-. injection Hj as <-. lia.
Qed.

(** C9 (amended): [SvcStop] reports STOP_PENDING, signals the stop event,
    then writes [stop_requested]; the loop of [SvcDoRun] never looks at the
    event but tests [stop_requested], so while the handler has run only
    the first two actions (event already set) the main thread keeps
    sleeping, and it is the flag write, the last action, that ends the
    loop. *)
Theorem svc_stop_flag_ends_loop (s : svc) (Hs : s.(stop_requested) = false) :
  (run SvcStop s).(trace) = s.(trace) ++ ["report"; "event"; "flag"]
  /\ (after_stop_prefix 2 s).(event_set) = true
  /\ (forall k, (k < 3)%nat -> SvcDoRun_loop_test (after_stop_prefix k s) = Some (Sleep 1))
  /\ SvcDoRun_loop_test (after_stop_prefix 3 s) = None
  /\ (forall b b', SvcDoRun_loop_test (mkSvc s.(stop_requested) b s.(reported) s.(trace))
                   = SvcDoRun_loop_test (mkSvc s.(stop_requested) b' s.(reported) s.(trace))).
Proof.
  destruct s as [fl ev rep tr]. simpl in Hs. subst fl.
  split; [simpl; rewrite <- !app_assoc; reflexivity|].
  split; [reflexivity|].
  split.
  - intros k Hk. destruct k as [|[|[|k]]]; [reflexivity|reflexivity|reflexivity|lia].
  - split; reflexivity.
Qed.

Lemma svc_stop_flag_ends_loop_witness :
  idle.(stop_requested) = false
  /\ SvcDoRun_loop_test (after_stop_prefix 2 idle) = Some (Sleep 1)
  /\ SvcDoRun_loop_test (after_stop_prefix 3 idle) = None.
Proof.
  assert (H : idle.(stop_requested) = false) by reflexivity.
  destruct (svc_stop_flag_ends_loop idle H) as (_ & _ & H2 & H3 & _).
  split; [exact H|]. split; [apply H2; lia|]. exact H3.
Defined.

End WindowsProps.

(** * Further properties of the Linux controller *)
Module Extra.
Import PyStr OS Linux LinuxProcess Worlds.

(** ** Decimal text of an integer, read back by [int(... .strip())] *)

Lemma list_ascii_of_string_app (s t : string) :
  list_ascii_of_string (s +:+ t) = list_ascii_of_string s ++ list_ascii_of_string t.
Proof. induction s as [|c s IH]; simpl; [reflexivity|]. rewrite IH. reflexivity. Qed.

Lemma digit_val_pretty_N_char (y : N) :
  (y < 10)%N -> digit_val (pretty_N_char y) = Some (Z.of_N y).
Proof.
  intros Hy.
  assert (y = 0 \/ y = 1 \/ y = 2 \/ y = 3 \/ y = 4 \/ y = 5 \/ y = 6 \/ y = 7
          \/ y = 8 \/ y = 9)%N as H by lia.
  repeat destruct H as [->|H]; try reflexivity. subst. reflexivity.
Qed.

(** A decimal digit is no whitespace and no sign. *)
Definition plain_char (c : ascii) : Prop :=
  is_space c = false /\ nat_of_ascii c <> 45%nat /\ nat_of_ascii c <> 43%nat.

Lemma plain_pretty_N_char (y : N) : plain_char (pretty_N_char y).
Proof.
  unfold plain_char, pretty_N_char.
  repeat case_match; (split; [reflexivity|]); split; vm_compute; discriminate.
Qed.

Lemma pretty_N_go_digits (x : N) : (0 < x)%N -> forall s, exists L,
  list_ascii_of_string (pretty_N_go x s) = L ++ list_ascii_of_string s
  /\ L <> []
  /\ (forall c, In c L -> plain_char c)
  /\ (forall r acc p, digits_aux (L ++ r) acc p
                      = digits_aux r (acc * 10 ^ Z.of_nat (length L) + Z.of_N x) true).
Proof.
  induction (N.lt_wf_0 x) as [x _ IH]. intros Hx s.
  rewrite pretty_N_go_step by exact Hx.
  destruct (decide (x < 10)%N) as [Hlt|Hge].
  - rewrite (N.div_small x 10) by exact Hlt. rewrite pretty_N_go_0.
    rewrite (N.mod_small x 10) by exact Hlt.
    exists [pretty_N_char x]. split; [reflexivity|]. split; [discriminate|]. split.
    + intros c [<-|[]]. apply plain_pretty_N_char.
    + intros r acc p. simpl. rewrite digit_val_pretty_N_char by exact Hlt.
      f_equal. lia.
  - destruct (IH (x / 10)%N) with (s := String (pretty_N_char (x mod 10)) s)
      as (L & H1 & H2 & H3 & H4).
    + apply N.div_lt; lia.
    + apply N.div_str_pos; lia.
    + exists (L ++ [pretty_N_char (x mod 10)]).
      rewrite H1. simpl. rewrite <- app_assoc. split; [reflexivity|].
      split; [intros Hn; symmetry in Hn; exact (app_cons_not_nil _ _ _ Hn)|]. split.
      * intros c Hc. apply in_app_or in Hc as [Hc|[<-|[]]]; [auto|].
        apply plain_pretty_N_char.
      * intros r acc p. rewrite <- app_assoc. simpl. rewrite H4. simpl.
        rewrite digit_val_pretty_N_char by (apply N.mod_lt; lia).
        f_equal. rewrite length_app. simpl.
        rewrite N2Z.inj_div, N2Z.inj_mod.
        pose proof (Z.div_mod (Z.of_N x) 10 ltac:(lia)) as Hdm.
        rewrite Nat2Z.inj_add, Z.pow_add_r by lia. simpl (10 ^ Z.of_nat 1).
        change (Z.of_N 10) with 10. lia.
Qed.

Lemma lstrip_l_plain (l : list ascii) :
  (forall c, In c l -> is_space c = false) -> lstrip_l l = l.
Proof.
  destruct l as [|c l]; simpl; [reflexivity|]. intros H. rewrite H by auto. reflexivity.
Qed.

(** What [int()] skips is whitespace for [strip()] too. *)
Lemma int_space_is_space (c : ascii) : is_space c = false -> int_space c = false.
Proof.
  unfold is_space, int_space.
  destruct (Nat.eqb (nat_of_ascii c) 32), (Nat.leb 9 (nat_of_ascii c)),
    (Nat.leb (nat_of_ascii c) 13), (Nat.leb 28 (nat_of_ascii c)),
    (Nat.leb (nat_of_ascii c) 31), (Nat.eqb (nat_of_ascii c) 133),
    (Nat.eqb (nat_of_ascii c) 160); simpl; congruence.
Qed.

Lemma int_lstrip_plain (l : list ascii) :
  (forall c, In c l -> is_space c = false) -> int_lstrip l = l.
Proof.
  destruct l as [|c l]; simpl; [reflexivity|]. intros H.
  rewrite int_space_is_space by auto. reflexivity.
Qed.

(** [int()] skips nothing around a text without whitespace. *)
Lemma int_strip_plain (l : list ascii) :
  (forall c, In c l -> is_space c = false) ->
  int_strip (string_of_list_ascii l) = string_of_list_ascii l.
Proof.
  intros H. unfold int_strip. rewrite list_ascii_of_string_of_list_ascii.
  rewrite (int_lstrip_plain l H).
  rewrite (int_lstrip_plain (rev l)) by (intros c Hc; apply H, in_rev; exact Hc).
  rewrite rev_involutive. reflexivity.
Qed.

(** [strip()] removes the newline after a non-empty text without
    whitespace. *)
Lemma strip_trailing_nl (l : list ascii) :
  l <> [] -> (forall c, In c l -> is_space c = false) ->
  strip (string_of_list_ascii (l ++ [ascii_of_nat 10])) = string_of_list_ascii l.
Proof.
  intros Hne H. unfold strip. rewrite list_ascii_of_string_of_list_ascii.
  destruct l as [|c r]; [congruence|].
  replace (lstrip_l ((c :: r) ++ [ascii_of_nat 10])) with ((c :: r) ++ [ascii_of_nat 10])
    by (simpl; rewrite (H c) by (left; reflexivity); reflexivity).
  rewrite rev_app_distr.
  change (lstrip_l (rev [ascii_of_nat 10] ++ rev (c :: r))) with (lstrip_l (rev (c :: r))).
  rewrite (lstrip_l_plain (rev (c :: r))) by (intros c' Hc; apply H, in_rev; exact Hc).
  rewrite rev_involutive. reflexivity.
Qed.

Lemma pretty_pos_digits (p : positive) : exists L,
  list_ascii_of_string (pretty (Zpos p)) = L
  /\ L <> []
  /\ (forall c, In c L -> plain_char c)
  /\ digits_aux L 0 false = Some (Zpos p).
Proof.
  unfold pretty, pretty_Z, pretty_positive, pretty, pretty_N.
  destruct (decide (N.pos p = 0%N)) as [H|_]; [discriminate|].
  destruct (pretty_N_go_digits (N.pos p) ltac:(lia) "") as (L & H1 & H2 & H3 & H4).
  exists L. rewrite H1. simpl. rewrite app_nil_r. split; [reflexivity|].
  split; [exact H2|]. split; [exact H3|].
  rewrite <- (app_nil_r L) at 1. rewrite H4. reflexivity.
Qed.

(** The PID file round trip: [_start] writes [str(pid) + '\n'] and [_stop]
    reads it back with [int(file.read().strip())]; for every integer,
    negative ones and 0 included, that gives [pid] back. *)
Theorem pid_file_text_round_trip (z : Z) : py_int (strip (pretty z +:+ nl)) = Some z.
Proof.
  destruct z as [|p|p]; [reflexivity| |].
  - destruct (pretty_pos_digits p) as (L & H1 & H2 & H3 & H4).
    rewrite <- (string_of_list_ascii_of_string (pretty (Zpos p) +:+ nl)).
    rewrite list_ascii_of_string_app, H1.
    change (list_ascii_of_string nl) with [ascii_of_nat 10].
    rewrite strip_trailing_nl by (auto; intros c Hc; apply H3; exact Hc).
    unfold py_int. rewrite int_strip_plain by (intros c Hc; apply H3; exact Hc).
    rewrite list_ascii_of_string_of_list_ascii.
    destruct L as [|c r]; [congruence|].
    destruct (H3 c (or_introl eq_refl)) as (_ & H45 & H43).
    apply Nat.eqb_neq in H45, H43. rewrite H45, H43. exact H4.
  - destruct (pretty_pos_digits p) as (L & H1 & H2 & H3 & H4).
    change (pretty (Zneg p)) with ("-" +:+ pretty (Zpos p)).
    rewrite <- (string_of_list_ascii_of_string (("-" +:+ pretty (Zpos p)) +:+ nl)).
    rewrite !list_ascii_of_string_app, H1.
    change (list_ascii_of_string nl) with [ascii_of_nat 10].
    change (list_ascii_of_string "-") with ["-"%char].
    assert (Hpl : forall c, In c (("-"%char) :: L) -> is_space c = false).
    { intros c [<-|Hc]; [reflexivity|]. apply H3. exact Hc. }
    rewrite strip_trailing_nl by (auto; discriminate).
    unfold py_int. rewrite int_strip_plain by exact Hpl.
    rewrite list_ascii_of_string_of_list_ascii. simpl. rewrite H4. reflexivity.
Qed.

(** ** [start] and the daemon it leaves *)

Lemma _start_not_true (name : string) (w : world) : fst (_start name w) <> Ret true.
Proof.
  unfold _start, bindM.
  destruct (fork_step "1" w) as [[b1|e1] w1]; [|discriminate].
  destruct b1; [|discriminate].
  cbn -[fork_step].
  destruct (fork_step "2" _) as [[b2|e2] w2]; [|discriminate].
  destruct b2; [|discriminate].
  cbn -[try_except].
  destruct (try_except _ _ _) as [[b3|e3] w3]; [|discriminate].
  destruct b3; discriminate.
Qed.

Lemma start_outcome (name user : string) (w : world) :
  fst (start name user w) = Ret (PyBool false) \/ exists e, fst (start name user w) = Exc e.
Proof.
  unfold start, bindM, is_installed, is_running, os_path_exists.
  destruct (files w !! control_script name); cbn -[_start]; [|left; reflexivity].
  destruct (files w !! pid_file name); cbn -[_start]; [left; reflexivity|].
  match goal with |- context [_start name ?w0] =>
    pose proof (_start_not_true name w0) as Hn; destruct (_start name w0) as [[b|e] w1] end.
  - destruct b; cbn; [|left; reflexivity].
    exfalso. apply Hn. reflexivity.
  - right. eexists. reflexivity.
Qed.

(** [start] of an installed, stopped service when both forks succeed and
    the PID file can be written: the daemon writes its PID (the second
    child's) to the PID file, mode [0o100666] since [_start] set the umask
    to 0, registers [_clean], then [atexit.register(self.service.stopped)]
    raises [AttributeError] and [start] ends with it.  At the exit of that
    process [_clean] finds the PID file, removes it and starts
    [<python> <cwd>/<argv0> --start]: no PID file is left behind. *)
Theorem start_daemon_exits_and_cleans (name user : string) (w : world) (c1 c2 : Z)
  (Hc : is_Some (w.(files) !! control_script name))
  (Hp : w.(files) !! pid_file name = None)
  (H0 : w.(fork_oracle) 0%nat = inr c1) (H1 : w.(fork_oracle) 1%nat = inr c2)
  (Hok : w.(fs_ok) (pid_file name) = true) :
  let w1 := snd (start name user w) in
  fst (start name user w) = Exc (AttributeError "service")
  /\ w1.(files) = <[pid_file name := mkFile (pretty c2 +:+ nl) 33206]> w.(files)
  /\ In (EvAtexit "_clean") w1.(log)
  /\ fst (fst (_clean name w1)) = Ret tt
  /\ (snd (fst (_clean name w1))).(files) = w.(files)
  /\ snd (_clean name w1)
     = [w.(executable) +:+ " " +:+ path_join w.(cwd) w.(argv0) +:+ " --start"].
Proof.
  destruct Hc as [c Hc]. intros w1. subst w1.
  unfold start, bindM, is_installed, is_running, os_path_exists.
  rewrite Hc. cbn -[_start]. rewrite Hp. cbn -[_start].
  unfold _start, fork_step, try_except, bindM, fork_and_exit_parent.
  cbn -[pid_file]. rewrite H0. cbn -[pid_file]. rewrite H1. cbn -[pid_file].
  unfold open_write_close. cbn -[pid_file]. rewrite Hok. cbn -[pid_file].
  rewrite Hp. cbn -[pid_file].
  split; [reflexivity|].
  split; [rewrite insert_insert_eq; reflexivity|].
  split; [apply in_app_iff; right; left; reflexivity|].
  unfold _clean, bindM, os_path_exists. cbn -[pid_file].
  rewrite lookup_insert_eq. cbn -[pid_file].
  unfold os_remove. cbn -[pid_file]. rewrite lookup_insert_eq. cbn -[pid_file].
  rewrite Hok. cbn -[pid_file].
  split; [reflexivity|]. split; [|reflexivity].
  rewrite insert_insert_eq, delete_insert_id by exact Hp. reflexivity.
Qed.

Lemma start_daemon_exits_and_cleans_witness :
  let w := with_file root_world (control_script "worker") "#!/bin/bash" in
  let w1 := snd (start "worker" "nobody" w) in
  fst (start "worker" "nobody" w) = Exc (AttributeError "service")
  /\ w1.(files) !! pid_file "worker" = Some (mkFile ("201" +:+ nl) 33206)
  /\ (snd (fst (_clean "worker" w1))).(files) !! pid_file "worker" = None
  /\ snd (_clean "worker" w1) = ["/usr/bin/python3 /opt/svc/worker.py --start"].
Proof.
  intros w w1.
  destruct (start_daemon_exits_and_cleans "worker" "nobody" w 200 201
              ltac:(eexists; reflexivity) eq_refl eq_refl eq_refl eq_refl)
    as (R & F & _ & _ & F2 & C).
  subst w1. split; [exact R|]. split; [rewrite F; apply lookup_insert_eq|].
  split; [rewrite F2; reflexivity|]. rewrite C. reflexivity.
Defined.

Lemma start_log_first_fork (name user : string) (w : world) (c1 : Z)
  (Hc : is_Some (w.(files) !! control_script name))
  (Hp : w.(files) !! pid_file name = None)
  (H0 : w.(fork_oracle) 0%nat = inr c1) :
  exists rest, (snd (start name user w)).(log)
               = w.(log) ++ [EvPrint ("* Starting " +:+ name); EvFork c1] ++ rest.
Proof.
  destruct Hc as [c Hc].
  unfold start, bindM, is_installed, is_running, os_path_exists.
  rewrite Hc. cbn -[_start]. rewrite Hp. cbn -[_start].
  unfold _start, fork_step, try_except, bindM, fork_and_exit_parent.
  cbn -[pid_file]. rewrite H0. cbn -[pid_file].
  destruct (fork_oracle w 1) as [e|c2]; cbn -[pid_file].
  - eexists. rewrite <- !app_assoc. reflexivity.
  - unfold open_write_close. cbn -[pid_file].
    destruct (fs_ok w (pid_file name)) eqn:E; cbn -[pid_file];
      eexists; rewrite <- !app_assoc; reflexivity.
Qed.

(** [start] of an installed, stopped service whose first [os.fork()]
    succeeds: the process the user started exits with status 0 at that
    fork, while the method in the process that goes on returns [False] or
    raises, so it never ends with exit status 0 there. *)
Theorem start_command_exits_zero (name user : string) (w : world) (c1 : Z)
  (Hc : is_Some (w.(files) !! control_script name))
  (Hp : w.(files) !! pid_file name = None)
  (H0 : w.(fork_oracle) 0%nat = inr c1) :
  invoker_end name (Some (SubStart user)) w = CliEnd (ExitStatus 0)
  /\ fst (handle_cli name (Some (SubStart user)) w) <> CliEnd (ExitStatus 0).
Proof.
  split.
  - destruct (start_log_first_fork name user w c1 Hc Hp H0) as [rest Hl].
    unfold invoker_end, handle_cli. simpl.
    destruct (start name user w) as [r w'] eqn:Hs. simpl in Hl. rewrite Hl.
    rewrite skipn_app, skipn_all, Nat.sub_diag. simpl. reflexivity.
  - unfold handle_cli. simpl.
    destruct (start_outcome name user w) as [H|[e H]];
      destruct (start name user w) as [r w']; simpl in H; subst r; simpl; discriminate.
Qed.

Lemma start_command_exits_zero_witness :
  let w := with_forks (with_file root_world (control_script "worker") "#!/bin/bash")
             (fun n => match n with O => inr 200 | _ => inl EAGAIN end) in
  invoker_end "worker" (Some (SubStart "nobody")) w = CliEnd (ExitStatus 0)
  /\ fst (handle_cli "worker" (Some (SubStart "nobody")) w) = CliEnd (ExitStatus 1).
Proof.
  intros w.
  destruct (start_command_exits_zero "worker" "nobody" w 200
              ltac:(eexists; reflexivity) eq_refl eq_refl) as [E _].
  split; [exact E|]. vm_compute. reflexivity.
Defined.

(** With no subcommand, and with the [run] subcommand, [handle_cli] calls
    [started()] without the [user] argument it requires: the call raises
    [TypeError] before any system call, so the service function is never
    run from the command line. *)
Theorem handle_cli_run_type_error (name : string) (w : world) :
  handle_cli name None w = (CliTypeError (MissingArgument "started" "user"), w)
  /\ handle_cli name (Some SubRun) w = (CliTypeError (MissingArgument "started" "user"), w).
Proof. split; reflexivity. Qed.

(** When both forks succeed but the PID file cannot be written, [start]
    reports it and returns [False] without changing any file and without
    registering [_clean]. *)
Theorem start_pid_write_refused (name user : string) (w : world) (c1 c2 : Z)
  (Hc : is_Some (w.(files) !! control_script name))
  (Hp : w.(files) !! pid_file name = None)
  (H0 : w.(fork_oracle) 0%nat = inr c1) (H1 : w.(fork_oracle) 1%nat = inr c2)
  (Hno : w.(fs_ok) (pid_file name) = false) :
  fst (start name user w) = Ret (PyBool false)
  /\ (snd (start name user w)).(files) = w.(files)
  /\ (snd (start name user w)).(log)
     = w.(log) ++ [EvPrint ("* Starting " +:+ name); EvFork c1; EvSetsid; EvUmask 0; EvFork c2;
                   EvPrint ("* Unable to write PID file to `" +:+ pid_file name +:+ "`: "
                            +:+ format_oserror (at_path EACCES (pid_file name)))].
Proof.
  destruct Hc as [c Hc].
  unfold start, bindM, is_installed, is_running, os_path_exists.
  rewrite Hc. cbn -[_start]. rewrite Hp. cbn -[_start].
  unfold _start, fork_step, try_except, bindM, fork_and_exit_parent.
  cbn -[pid_file]. rewrite H0. cbn -[pid_file]. rewrite H1. cbn -[pid_file].
  unfold open_write_close. cbn -[pid_file]. rewrite Hno. cbn -[pid_file].
  split; [reflexivity|]. split; [reflexivity|]. rewrite <- !app_assoc. reflexivity.
Qed.

Lemma start_pid_write_refused_witness :
  let w := with_fs_ok (with_file root_world (control_script "worker") "#!/bin/bash")
             (fun p => negb (String.eqb p (pid_file "worker"))) in
  fst (start "worker" "nobody" w) = Ret (PyBool false)
  /\ (snd (start "worker" "nobody" w)).(files) !! pid_file "worker" = None
  /\ last (snd (start "worker" "nobody" w)).(log)
     = Some (EvPrint ("* Unable to write PID file to `/var/run/worker.pid`: "
                      +:+ "[Errno 13] Permission denied: '/var/run/worker.pid'")).
Proof.
  intros w.
  destruct (start_pid_write_refused "worker" "nobody" w 200 201
              ltac:(eexists; reflexivity) eq_refl eq_refl eq_refl eq_refl) as (R & F & L).
  split; [exact R|]. split; [rewrite F; reflexivity|]. rewrite L. vm_compute. reflexivity.
Defined.

(** ** [install] and [uninstall] *)

Lemma str_length_app (s t : string) :
  String.length (s +:+ t) = (String.length s + String.length t)%nat.
Proof. induction s as [|c s IH]; simpl; [reflexivity|]. rewrite IH. reflexivity. Qed.

(** The PID file and the control script of a service are two paths. *)
Lemma pid_file_ne_control_script (name : string) : pid_file name <> control_script name.
Proof.
  unfold pid_file, control_script.
  change (path_join "/var" "run") with "/var/run".
  unfold path_join. rewrite list_ascii_of_string_app.
  destruct name as [|c r]; [cbn; discriminate|].
  simpl (list_ascii_of_string (String c r)). simpl (_ ++ _).
  cbv iota beta.
  destruct (Nat.eqb (nat_of_ascii c) 47).
  - intros H. apply (f_equal String.length) in H.
    rewrite !str_length_app in H. simpl in H. lia.
  - simpl. discriminate.
Qed.

Lemma land_lor_same (x y : Z) : Z.land (Z.lor x y) y = y.
Proof.
  apply Z.bits_inj'. intros n _. rewrite Z.land_spec, Z.lor_spec.
  destruct (Z.testbit x n), (Z.testbit y n); reflexivity.
Qed.

(** [install] of a fresh service by the superuser writes the start script,
    with both placeholders replaced, and leaves it with mode
    [(0o100666 & ~umask) | 0o111]: the execute bits for owner, group and
    others are set whatever the umask. *)
Theorem install_writes_executable_script (name user : string) (w : world)
  (Hroot : w.(uid) = 0) (Hok : w.(fs_ok) (control_script name) = true)
  (Hnot : w.(files) !! control_script name = None) :
  let script := replace (replace (start_script_template user) "%PYTHON_PATH%" w.(executable))
                  "%SERVICE_PATH%" (path_join w.(cwd) w.(argv0)) in
  let m := Z.lor (Z.lor 32768 (Z.land 438 (Z.lnot w.(umask)))) 73 in
  (snd (install name user w)).(files) = <[control_script name := mkFile script m]> w.(files)
  /\ Z.land m 73 = 73.
Proof.
  intros script m. split; [|apply land_lor_same].
  unfold install, bindM, is_installed, os_path_exists. rewrite Hnot. simpl.
  unfold _install, bindM, os_getuid, os_getcwd, sys_argv0, sys_executable, mret, M_ret.
  simpl. rewrite Hroot. simpl.
  unfold open_write_close. simpl. rewrite Hok. simpl.
  unfold os_stat_mode. simpl. rewrite lookup_insert_eq. simpl.
  unfold os_chmod. simpl. rewrite lookup_insert_eq. simpl. rewrite Hok. simpl.
  rewrite !insert_insert_eq, Hnot. reflexivity.
Qed.

Lemma install_writes_executable_script_witness :
  (snd (install "worker" "nobody" root_world)).(files) !! control_script "worker"
  = Some (mkFile (replace (replace (start_script_template "nobody") "%PYTHON_PATH%"
                             "/usr/bin/python3") "%SERVICE_PATH%" "/opt/svc/worker.py") 33261).
Proof.
  destruct (install_writes_executable_script "worker" "nobody" root_world eq_refl eq_refl eq_refl)
    as [F _].
  rewrite F. apply lookup_insert_eq.
Defined.

Section Dedent.
#[local] Arguments String.append : simpl nomatch.






End Dedent.


Lemma kill_loop_keeps (fuel : nat) (pid a : Z) (w : world) :
  (snd (kill_loop fuel pid a w)).(uid) = w.(uid)
  /\ (snd (kill_loop fuel pid a w)).(fs_ok) = w.(fs_ok).
Proof.
  revert a w. induction fuel as [|fuel IH]; intros a w; simpl; [auto|].
  destruct (a <? 5); simpl; [|auto].
  unfold bindM, os_kill, time_sleep, emit_, emit. simpl.
  destruct (pid_t_ok pid); simpl; [|auto].
  destruct (kill_oracle w 0); simpl; [auto|].
  match goal with |- context [kill_loop fuel pid (a + 1) ?w0] =>
    destruct (IH (a + 1) w0) as [U F] end.
  rewrite U, F. auto.
Qed.

(** [uninstall] of a running service whose daemon ignores every signal:
    [stop] fails, so [uninstall] returns [False] and keeps the control
    script; but [stop] has removed the PID file, so afterwards
    [is_running()] is false and [is_installed()] true, and a second
    [uninstall] skips [stop] and removes the script while the daemon
    lives on. *)
Theorem uninstall_survivor (name : string) (w : world) (f : file) (pid : Z)
  (Hroot : w.(uid) = 0)
  (Hc : is_Some (w.(files) !! control_script name))
  (Hf : w.(files) !! pid_file name = Some f)
  (Hp : py_int (strip f.(contents)) = Some pid)
  (Hok : w.(fs_ok) (pid_file name) = true)
  (Hokc : w.(fs_ok) (control_script name) = true)
  (Hpid : pid_t_ok pid = true)
  (Hk : forall n, w.(kill_oracle) n = None) :
  let w1 := snd (uninstall name w) in
  fst (uninstall name w) = Ret (PyBool false)
  /\ w1.(files) = delete (pid_file name) w.(files)
  /\ fst (is_installed name w1) = Ret true
  /\ fst (is_running name w1) = Ret false
  /\ fst (uninstall name w1) = Ret (PyBool true)
  /\ (snd (uninstall name w1)).(files)
     = delete (control_script name) (delete (pid_file name) w.(files)).
Proof.
  destruct Hc as [c Hc]. intros w1.
  pose proof (pid_file_ne_control_script name) as Hne.
  assert (Hstop : fst (stop name w) = Ret (PyBool false)
                  /\ (snd (stop name w)).(files) = delete (pid_file name) w.(files)
                  /\ (snd (stop name w)).(uid) = w.(uid)
                  /\ (snd (stop name w)).(fs_ok) = w.(fs_ok)).
  { unfold stop, bindM, is_running, os_path_exists. rewrite Hf. cbn -[kill_loop _stop].
    unfold print, emit_, _stop, bindM, set_stop_requested, open_read. cbn -[kill_loop].
    rewrite Hf. cbn -[kill_loop]. rewrite Hp. cbn -[kill_loop].
    unfold os_remove. cbn -[kill_loop]. rewrite Hf. cbn -[kill_loop]. rewrite Hok.
    cbn -[kill_loop]. unfold try_except.
    match goal with |- context [kill_loop 6 pid 0 ?w0] => set (w2 := w0) end.
    destruct (Props.kill_loop_delivered 6 pid 0 w2) as (R1 & R2 & _);
      [exact Hpid | exact Hk | lia | simpl; lia |].
    destruct (kill_loop_keeps 6 pid 0 w2) as [U F].
    destruct (kill_loop 6 pid 0 w2) as [r w3]. simpl in R1, R2, U, F. subst r.
    cbn. rewrite R2, U, F. subst w2. simpl. auto. }
  destruct Hstop as (R & F & U & O).
  assert (Hst : uninstall name w = (Ret (PyBool false), snd (stop name w))).
  { unfold uninstall, bindM, is_installed, is_running, os_path_exists.
    rewrite Hc. cbn -[stop]. rewrite Hf. cbn -[stop].
    destruct (stop name w) as [r w2]. simpl in R. subst r. reflexivity. }
  assert (Hw1 : w1 = snd (stop name w)) by (subst w1; rewrite Hst; reflexivity).
  assert (Hc1 : w1.(files) !! control_script name = Some c)
    by (rewrite Hw1, F, lookup_delete_ne by exact Hne; exact Hc).
  assert (Hp1 : w1.(files) !! pid_file name = None)
    by (rewrite Hw1, F; apply lookup_delete_eq).
  split; [rewrite Hst; reflexivity|].
  split; [rewrite Hw1; exact F|].
  split; [unfold is_installed, os_path_exists; simpl; rewrite Hc1; reflexivity|].
  split; [unfold is_running, os_path_exists; simpl; rewrite Hp1; reflexivity|].
  assert (U1 : w1.(uid) = 0) by (rewrite Hw1, U; exact Hroot).
  assert (O1 : w1.(fs_ok) (control_script name) = true) by (rewrite Hw1, O; exact Hokc).
  unfold uninstall, bindM, is_installed, is_running, os_path_exists. rewrite Hc1. simpl.
  rewrite Hp1. simpl.
  unfold _uninstall, bindM, os_getuid, print, emit_. simpl. rewrite U1. simpl.
  unfold try_except, bindM, os_remove. simpl. rewrite Hc1. simpl. rewrite O1. simpl.
  split; [reflexivity|]. rewrite Hw1, F. reflexivity.
Qed.

Lemma uninstall_survivor_witness :
  let w := with_file (with_file root_world (control_script "worker") "#!/bin/bash")
             (pid_file "worker") ("123" +:+ nl) in
  fst (uninstall "worker" w) = Ret (PyBool false)
  /\ fst (uninstall "worker" (snd (uninstall "worker" w))) = Ret (PyBool true).
Proof.
  intros w.
  destruct (uninstall_survivor "worker" w (mkFile ("123" +:+ nl) 33188) 123
              eq_refl ltac:(eexists; reflexivity) eq_refl eq_refl eq_refl eq_refl eq_refl
              (fun n => eq_refl)) as (R & _ & _ & _ & R2 & _).
  split; [exact R|exact R2].
Defined.

(** [uninstall] of a running service whose daemon exits on the first
    SIGTERM: [stop] succeeds, then the control script is removed and
    [uninstall] returns [True]; both the PID file and the control script
    are gone. *)
Theorem uninstall_running_service (name : string) (w : world) (f : file) (pid : Z) (e : oserror)
  (Hroot : w.(uid) = 0)
  (Hc : is_Some (w.(files) !! control_script name))
  (Hf : w.(files) !! pid_file name = Some f)
  (Hp : py_int (strip f.(contents)) = Some pid)
  (Hok : w.(fs_ok) (pid_file name) = true)
  (Hokc : w.(fs_ok) (control_script name) = true)
  (Hpid : pid_t_ok pid = true)
  (H0 : w.(kill_oracle) 0%nat = None)
  (H1 : w.(kill_oracle) 1%nat = Some e)
  (He : no_such_process e = true) :
  fst (uninstall name w) = Ret (PyBool true)
  /\ (snd (uninstall name w)).(files)
     = delete (control_script name) (delete (pid_file name) w.(files))
  /\ (snd (uninstall name w)).(log)
     = w.(log) ++ [EvPrint ("* Stopping " +:+ name); EvOpen (pid_file name) "r";
                   EvRead (pid_file name); EvClose (pid_file name);
                   EvRemove (pid_file name); EvKill pid SIGTERM; EvSleep 200;
                   EvKill pid SIGTERM; EvPrint ("* Uninstalling " +:+ name);
                   EvRemove (control_script name)].
Proof.
  destruct Hc as [c Hc].
  pose proof (pid_file_ne_control_script name) as Hne.
  assert (Hstop : fst (stop name w) = Ret (PyBool true)
                  /\ (snd (stop name w)).(files) = delete (pid_file name) w.(files)
                  /\ (snd (stop name w)).(uid) = w.(uid)
                  /\ (snd (stop name w)).(fs_ok) = w.(fs_ok)
                  /\ (snd (stop name w)).(log)
                     = w.(log) ++ [EvPrint ("* Stopping " +:+ name); EvOpen (pid_file name) "r";
                                   EvRead (pid_file name); EvClose (pid_file name);
                                   EvRemove (pid_file name); EvKill pid SIGTERM; EvSleep 200;
                                   EvKill pid SIGTERM]).
  { unfold stop, bindM, is_running, os_path_exists. rewrite Hf. cbn -[kill_loop _stop].
    unfold print, emit_, _stop, bindM, set_stop_requested, open_read. cbn -[kill_loop].
    rewrite Hf. cbn -[kill_loop]. rewrite Hp. cbn -[kill_loop].
    unfold os_remove. cbn -[kill_loop]. rewrite Hf. cbn -[kill_loop]. rewrite Hok.
    cbn -[kill_loop]. unfold try_except.
    match goal with |- context [kill_loop 6 pid 0 ?w0] => set (w2 := w0) end.
    destruct (Props.kill_loop_gone_after_first 4 pid w2 e Hpid H0 H1) as (R1 & R2 & R3).
    destruct (kill_loop_keeps 6 pid 0 w2) as [U F].
    destruct (kill_loop 6 pid 0 w2) as [r w3]. simpl in R1, R2, R3, U, F. subst r.
    cbn. rewrite He. cbn. rewrite R2, R3, U, F. subst w2. simpl.
    split; [reflexivity|]. split; [reflexivity|]. split; [reflexivity|]. split; [reflexivity|].
    rewrite <- !app_assoc. reflexivity. }
  destruct Hstop as (R & F & U & O & L).
  unfold uninstall, bindM, is_installed, is_running, os_path_exists.
  rewrite Hc. cbn -[stop]. rewrite Hf. cbn -[stop].
  destruct (stop name w) as [r w2]. simpl in R, F, U, O, L. subst r. cbn -[_uninstall].
  unfold _uninstall, bindM, os_getuid. cbn. rewrite U, Hroot.
  rewrite (bool_decide_eq_false_2 (0 <> 0)) by (intros H; apply H; reflexivity). cbn.
  unfold try_except, bindM, os_remove. cbn. rewrite F.
  rewrite lookup_delete_ne by exact Hne.
  rewrite Hc. cbn. rewrite O, Hokc. cbn.
  split; [reflexivity|]. split; [reflexivity|].
  rewrite L. rewrite <- !app_assoc. reflexivity.
Qed.

Lemma uninstall_running_service_witness :
  let w := with_kills (with_file (with_file root_world (control_script "worker") "#!/bin/bash")
             (pid_file "worker") ("4242" +:+ nl)) dies_after_first in
  fst (uninstall "worker" w) = Ret (PyBool true)
  /\ (snd (uninstall "worker" w)).(files) = ∅.
Proof.
  intros w.
  destruct (uninstall_running_service "worker" w (mkFile ("4242" +:+ nl) 33188) 4242 ESRCH
              eq_refl ltac:(eexists; reflexivity) eq_refl eq_refl eq_refl eq_refl eq_refl
              eq_refl eq_refl eq_refl) as (R & F & _).
  split; [exact R|]. rewrite F. vm_compute. reflexivity.
Defined.

(** [uninstall] of an installed service that is not running, by the
    superuser, when the kernel refuses to remove the control script: the
    [OSError] is caught and printed, [uninstall] returns [False] and no
    file changes. *)
Theorem uninstall_remove_refused (name : string) (w : world)
  (Hroot : w.(uid) = 0)
  (Hc : is_Some (w.(files) !! control_script name))
  (Hp : w.(files) !! pid_file name = None)
  (Hno : w.(fs_ok) (control_script name) = false) :
  fst (uninstall name w) = Ret (PyBool false)
  /\ (snd (uninstall name w)).(files) = w.(files)
  /\ (snd (uninstall name w)).(log)
     = w.(log) ++ [EvPrint ("* Uninstalling " +:+ name);
                   EvPrint ("* Unable to uninstall, failed to remove control script: "
                            +:+ format_oserror (at_path EACCES (control_script name)))].
Proof.
  destruct Hc as [c Hc].
  unfold uninstall, bindM, is_installed, is_running, os_path_exists.
  rewrite Hc. cbn -[_uninstall]. rewrite Hp. cbn -[_uninstall].
  unfold _uninstall, bindM, os_getuid. cbn. rewrite Hroot.
  rewrite (bool_decide_eq_false_2 (0 <> 0)) by (intros H; apply H; reflexivity). cbn.
  unfold try_except, bindM, os_remove. cbn. rewrite Hc. cbn. rewrite Hno. cbn.
  split; [reflexivity|]. split; [reflexivity|]. rewrite <- !app_assoc. reflexivity.
Qed.

Lemma uninstall_remove_refused_witness :
  let w := with_fs_ok (with_file root_world (control_script "worker") "#!/bin/bash")
             (fun _ => false) in
  fst (uninstall "worker" w) = Ret (PyBool false)
  /\ is_Some ((snd (uninstall "worker" w)).(files) !! control_script "worker")
  /\ last (snd (uninstall "worker" w)).(log)
     = Some (EvPrint ("* Unable to uninstall, failed to remove control script: "
                      +:+ "[Errno 13] Permission denied: '/etc/init.d/worker'")).
Proof.
  intros w.
  destruct (uninstall_remove_refused "worker" w eq_refl ltac:(eexists; reflexivity)
              eq_refl eq_refl) as (R & F & L).
  split; [exact R|]. split; [rewrite F; eexists; reflexivity|]. rewrite L. vm_compute.
  reflexivity.
Defined.

(** The precondition checks of the lifecycle methods: each one that fails
    prints one line, returns [False] and changes nothing else. *)
Theorem lifecycle_guards (name user : string) (w : world) :
  (w.(files) !! pid_file name = None ->
     stop name w = (Ret (PyBool false), emit w (EvPrint "* Not running")))
  /\ (is_Some (w.(files) !! control_script name) -> is_Some (w.(files) !! pid_file name) ->
     start name user w = (Ret (PyBool false), emit w (EvPrint "* Already running")))
  /\ (is_Some (w.(files) !! control_script name) ->
     install name user w = (Ret (PyBool false), emit w (EvPrint "* Already installed")))
  /\ (w.(files) !! control_script name = None ->
     uninstall name w = (Ret (PyBool false), emit w (EvPrint "* Not installed"))).
Proof.
  split; [|split; [|split]].
  - intros Hp. unfold stop, bindM, is_running, os_path_exists. rewrite Hp. reflexivity.
  - intros [c Hc] [f Hf]. unfold start, bindM, is_installed, is_running, os_path_exists.
    rewrite Hc. cbn -[_start]. rewrite Hf. reflexivity.
  - intros [c Hc]. unfold install, bindM, is_installed, os_path_exists. rewrite Hc. reflexivity.
  - intros Hc. unfold uninstall, bindM, is_installed, os_path_exists. rewrite Hc. reflexivity.
Qed.

Lemma lifecycle_guards_witness :
  let w := with_file (with_file root_world (control_script "worker") "#!/bin/bash")
             (pid_file "worker") ("123" +:+ nl) in
  stop "worker" root_world = (Ret (PyBool false), emit root_world (EvPrint "* Not running"))
  /\ start "worker" "nobody" w = (Ret (PyBool false), emit w (EvPrint "* Already running"))
  /\ install "worker" "nobody" w = (Ret (PyBool false), emit w (EvPrint "* Already installed"))
  /\ uninstall "worker" root_world
     = (Ret (PyBool false), emit root_world (EvPrint "* Not installed")).
Proof.
  intros w.
  destruct (lifecycle_guards "worker" "nobody" root_world) as (A & _ & _ & D).
  destruct (lifecycle_guards "worker" "nobody" w) as (_ & B & C & _).
  split; [apply A; reflexivity|].
  split; [apply B; eexists; reflexivity|].
  split; [apply C; eexists; reflexivity|].
  apply D; reflexivity.
Defined.

(** ** [stop] on the PID file it reads *)

(** [stop] on a PID file that [int()] rejects. *)
Lemma stop_unparsable (name : string) (w : world) (f : file)
  (Hf : w.(files) !! pid_file name = Some f)
  (Hp : py_int (strip f.(contents)) = None) :
  fst (stop name w) = Ret (PyBool false)
  /\ (snd (stop name w)).(files) = w.(files)
  /\ (snd (stop name w)).(log)
     = w.(log) ++ [EvPrint ("* Stopping " +:+ name); EvOpen (pid_file name) "r";
                   EvRead (pid_file name); EvPrint "* Unable to read PID file"].
Proof.
  unfold stop, bindM, is_running, os_path_exists. rewrite Hf. cbn -[_stop].
  unfold _stop, bindM, set_stop_requested, open_read. cbn.
  rewrite Hf. cbn. rewrite Hp. cbn.
  split; [reflexivity|]. split; [reflexivity|]. rewrite <- !app_assoc. reflexivity.
Qed.

Lemma kill_loop_first (fuel : nat) (pid : Z) (w : world) :
  pid_t_ok pid = true ->
  exists l, (snd (kill_loop (S fuel) pid 0 w)).(log) = w.(log) ++ EvKill pid SIGTERM :: l.
Proof.
  intros Hpid. simpl. unfold bindM, os_kill, time_sleep, emit_, emit. rewrite Hpid. simpl.
  destruct (kill_oracle w 0); simpl.
  - exists []. reflexivity.
  - match goal with |- context [kill_loop fuel pid (0 + 1) ?w0] =>
      destruct (Props.kill_loop_frame fuel pid (0 + 1) w0) as [_ [l Hl]] end.
    rewrite Hl. simpl. exists ([EvSleep 200] ++ l). rewrite <- !app_assoc. reflexivity.
Qed.

Lemma kill_loop_refused_first (fuel : nat) (pid : Z) (w : world) (e : oserror) :
  pid_t_ok pid = true -> w.(kill_oracle) 0%nat = Some e ->
  fst (kill_loop (S fuel) pid 0 w) = Exc (OSError e)
  /\ (snd (kill_loop (S fuel) pid 0 w)).(files) = w.(files)
  /\ (snd (kill_loop (S fuel) pid 0 w)).(log) = w.(log) ++ [EvKill pid SIGTERM].
Proof.
  intros Hpid Hk. simpl. unfold bindM, os_kill. rewrite Hpid, Hk. simpl. auto.
Qed.

Lemma kill_loop_overflow (fuel : nat) (pid : Z) (w : world) :
  pid_t_ok pid = false -> kill_loop (S fuel) pid 0 w = (Exc OverflowError, w).
Proof. intros Hpid. simpl. unfold bindM, os_kill. rewrite Hpid. reflexivity. Qed.

(** A PID file [int()] rejects blocks [stop] for good: [stop] prints
    "* Unable to read PID file" and returns [False] without closing,
    removing or signalling anything, so [is_running()] stays true and the
    next [stop] fails in the same way. *)
Theorem stop_unparsable_pid_file_stuck (name : string) (w : world) (f : file)
  (Hf : w.(files) !! pid_file name = Some f)
  (Hp : py_int (strip f.(contents)) = None) :
  let w1 := snd (stop name w) in
  fst (stop name w) = Ret (PyBool false)
  /\ w1.(files) = w.(files)
  /\ w1.(log) = w.(log) ++ [EvPrint ("* Stopping " +:+ name); EvOpen (pid_file name) "r";
                           EvRead (pid_file name); EvPrint "* Unable to read PID file"]
  /\ fst (is_running name w1) = Ret true
  /\ fst (stop name w1) = Ret (PyBool false)
  /\ (snd (stop name w1)).(files) = w.(files).
Proof.
  intros w1.
  destruct (stop_unparsable name w f Hf Hp) as (R & F & L).
  assert (Hf1 : w1.(files) !! pid_file name = Some f) by (subst w1; rewrite F; exact Hf).
  destruct (stop_unparsable name w1 f Hf1 Hp) as (R1 & F1 & _).
  split; [exact R|]. split; [exact F|]. split; [exact L|].
  split; [unfold is_running, os_path_exists; simpl; rewrite Hf1; reflexivity|].
  split; [exact R1|]. rewrite F1. exact F.
Qed.

Lemma stop_unparsable_pid_file_stuck_witness :
  let w := with_file root_world (pid_file "worker") ("pid=123" +:+ nl) in
  fst (stop "worker" w) = Ret (PyBool false)
  /\ fst (stop "worker" (snd (stop "worker" w))) = Ret (PyBool false)
  /\ is_Some ((snd (stop "worker" (snd (stop "worker" w)))).(files) !! pid_file "worker").
Proof.
  intros w.
  destruct (stop_unparsable_pid_file_stuck "worker" w (mkFile ("pid=123" +:+ nl) 33188)
              eq_refl eq_refl) as (R & _ & _ & _ & R1 & F1).
  split; [exact R|]. split; [exact R1|]. rewrite F1. eexists. reflexivity.
Defined.

(** [stop] sends SIGTERM to the integer read from the PID file as it is:
    once the file is removed, the first system call is [os.kill] on that
    number, with no check that it is a positive PID (0 signals the
    caller's process group, -1 every process the caller may signal). *)
Theorem stop_signals_pid_as_read (name : string) (w : world) (f : file) (pid : Z)
  (Hf : w.(files) !! pid_file name = Some f)
  (Hp : py_int (strip f.(contents)) = Some pid)
  (Hok : w.(fs_ok) (pid_file name) = true)
  (Hpid : pid_t_ok pid = true) :
  exists rest, (snd (stop name w)).(log)
    = w.(log) ++ [EvPrint ("* Stopping " +:+ name); EvOpen (pid_file name) "r";
                  EvRead (pid_file name); EvClose (pid_file name);
                  EvRemove (pid_file name); EvKill pid SIGTERM] ++ rest.
Proof.
  unfold stop, bindM, is_running, os_path_exists. rewrite Hf. cbn -[kill_loop _stop].
  unfold print, emit_, _stop, bindM, set_stop_requested, open_read. cbn -[kill_loop].
  rewrite Hf. cbn -[kill_loop]. rewrite Hp. cbn -[kill_loop].
  unfold os_remove. cbn -[kill_loop]. rewrite Hf. cbn -[kill_loop]. rewrite Hok. cbn -[kill_loop].
  unfold try_except.
  match goal with |- context [kill_loop 6 pid 0 ?w0] => set (w1 := w0) end.
  destruct (kill_loop_first 5 pid w1 Hpid) as [l Hl].
  destruct (kill_loop 6 pid 0 w1) as [[u|x] w2]; simpl in Hl.
  - cbn. eexists. rewrite Hl. subst w1. simpl. rewrite <- !app_assoc. reflexivity.
  - destruct x as [err| | | | |]; cbn;
      try (eexists; rewrite Hl; subst w1; simpl; rewrite <- !app_assoc; reflexivity).
    destruct (no_such_process err); cbn;
      eexists; rewrite Hl; subst w1; simpl; rewrite <- !app_assoc; reflexivity.
Qed.

Lemma stop_signals_pid_as_read_witness :
  let w := with_file root_world (pid_file "worker") ("-1" +:+ nl) in
  exists rest, (snd (stop "worker" w)).(log)
    = [EvPrint "* Stopping worker"; EvOpen "/var/run/worker.pid" "r";
       EvRead "/var/run/worker.pid"; EvClose "/var/run/worker.pid";
       EvRemove "/var/run/worker.pid"; EvKill (-1) SIGTERM] ++ rest.
Proof.
  intros w.
  exact (stop_signals_pid_as_read "worker" w (mkFile ("-1" +:+ nl) 33188) (-1)
           eq_refl eq_refl eq_refl eq_refl).
Defined.

(** A PID file holding an integer outside the C [pid_t] range: [stop]
    removes the PID file, then [os.kill] raises [OverflowError], which no
    handler of [_stop] catches; no signal is sent. *)
Theorem stop_pid_out_of_range (name : string) (w : world) (f : file) (pid : Z)
  (Hf : w.(files) !! pid_file name = Some f)
  (Hp : py_int (strip f.(contents)) = Some pid)
  (Hok : w.(fs_ok) (pid_file name) = true)
  (Hpid : pid_t_ok pid = false) :
  fst (stop name w) = Exc OverflowError
  /\ (snd (stop name w)).(files) = delete (pid_file name) w.(files)
  /\ (snd (stop name w)).(log)
     = w.(log) ++ [EvPrint ("* Stopping " +:+ name); EvOpen (pid_file name) "r";
                   EvRead (pid_file name); EvClose (pid_file name);
                   EvRemove (pid_file name)].
Proof.
  unfold stop, bindM, is_running, os_path_exists. rewrite Hf. cbn -[kill_loop _stop].
  unfold print, emit_, _stop, bindM, set_stop_requested, open_read. cbn -[kill_loop].
  rewrite Hf. cbn -[kill_loop]. rewrite Hp. cbn -[kill_loop].
  unfold os_remove. cbn -[kill_loop]. rewrite Hf. cbn -[kill_loop]. rewrite Hok. cbn -[kill_loop].
  unfold try_except. rewrite kill_loop_overflow by exact Hpid. cbn.
  split; [reflexivity|]. split; [reflexivity|]. rewrite <- !app_assoc. reflexivity.
Qed.

Lemma stop_pid_out_of_range_witness :
  let w := with_file root_world (pid_file "worker") ("4294967296" +:+ nl) in
  fst (stop "worker" w) = Exc OverflowError
  /\ (snd (stop "worker" w)).(files) !! pid_file "worker" = None.
Proof.
  intros w.
  destruct (stop_pid_out_of_range "worker" w (mkFile ("4294967296" +:+ nl) 33188) 4294967296
              eq_refl eq_refl eq_refl eq_refl) as (R & F & _).
  split; [exact R|]. rewrite F. apply lookup_delete_eq.
Defined.

(** When the kernel answers the first [os.kill] with an error that is not
    "No such process" (e.g. [EPERM] for a caller that may not signal the
    daemon), [stop] prints the error's arguments and returns [False]; the
    PID file has already been removed and only one signal was tried. *)
Theorem stop_kill_refused (name : string) (w : world) (f : file) (pid : Z) (e : oserror)
  (Hf : w.(files) !! pid_file name = Some f)
  (Hp : py_int (strip f.(contents)) = Some pid)
  (Hok : w.(fs_ok) (pid_file name) = true)
  (Hpid : pid_t_ok pid = true)
  (Hk : w.(kill_oracle) 0%nat = Some e)
  (He : no_such_process e = false) :
  fst (stop name w) = Ret (PyBool false)
  /\ (snd (stop name w)).(files) = delete (pid_file name) w.(files)
  /\ (snd (stop name w)).(log)
     = w.(log) ++ [EvPrint ("* Stopping " +:+ name); EvOpen (pid_file name) "r";
                   EvRead (pid_file name); EvClose (pid_file name);
                   EvRemove (pid_file name); EvKill pid SIGTERM;
                   EvPrint ("* Unable to kill the process " +:+ args_repr e.(errno) e.(strerror))].
Proof.
  unfold stop, bindM, is_running, os_path_exists. rewrite Hf. cbn -[kill_loop _stop].
  unfold print, emit_, _stop, bindM, set_stop_requested, open_read. cbn -[kill_loop].
  rewrite Hf. cbn -[kill_loop]. rewrite Hp. cbn -[kill_loop].
  unfold os_remove. cbn -[kill_loop]. rewrite Hf. cbn -[kill_loop]. rewrite Hok. cbn -[kill_loop].
  unfold try_except.
  match goal with |- context [kill_loop 6 pid 0 ?w0] => set (w1 := w0) end.
  destruct (kill_loop_refused_first 5 pid w1 e Hpid Hk) as (R1 & R2 & R3).
  destruct (kill_loop 6 pid 0 w1) as [r w2]. simpl in R1, R2, R3. subst r. cbn.
  rewrite He. cbn. rewrite R2, R3. subst w1. simpl.
  split; [reflexivity|]. split; [reflexivity|]. rewrite <- !app_assoc. reflexivity.
Qed.

Lemma stop_kill_refused_witness :
  let w := with_kills (with_file root_world (pid_file "worker") ("4242" +:+ nl))
             (fun _ => Some EPERM) in
  fst (stop "worker" w) = Ret (PyBool false)
  /\ (snd (stop "worker" w)).(files) !! pid_file "worker" = None
  /\ List.last (snd (stop "worker" w)).(log) (EvPrint "")
     = EvPrint "* Unable to kill the process (1, 'Operation not permitted')".
Proof.
  intros w.
  destruct (stop_kill_refused "worker" w (mkFile ("4242" +:+ nl) 33188) 4242 EPERM
              eq_refl eq_refl eq_refl eq_refl eq_refl eq_refl) as (R & F & L).
  split; [exact R|]. split; [rewrite F; apply lookup_delete_eq|]. rewrite L. reflexivity.
Defined.

End Extra.
